(** * banks_project.py: the top-ten-banks ETL pipeline, embedded in Rocq

    The script scrapes a table of banks, converts one USD column to three
    other currencies and stores the result as a CSV file and as a SQLite
    table.  This development embeds the four stages (extract, transform,
    load_to_csv, load_to_db) as executable functions and proves or refutes
    the properties the specification states about them.

    Modelling decisions, fixed once here:
    - a Python [str] is a [string] over the code points 0..255;
    - a Python exception is a value of [exn] returned through [result];
    - a float64 is a [spec_float] at precision 53 and maximal exponent 1024,
      with the operations of [SpecFloat] (IEEE 754, round to nearest even);
    - a parsed page is a tree of [node]s ([Tag] and [NavigableString]);
    - a DataFrame is the list of its rows, a record per row. *)

From Stdlib Require Import ZArith Ascii String List Bool Lia DecimalString.
From Stdlib Require Import Floats.SpecFloat.
From stdpp Require Import base option list strings gmap.

Local Open Scope Z_scope.

(** ** Exceptions *)

Inductive exn := IndexError | ValueError | OperationalError | DatabaseError.

Inductive result (A : Type) :=
  | Ok (a : A)
  | Raise (e : exn).
Arguments Ok {A} a.
Arguments Raise {A} e.

#[global] Instance result_ret : MRet result := fun _ a => Ok a.
#[global] Instance result_bind : MBind result := fun _ _ f m =>
  match m with
  | Ok a => f a
  | Raise e => Raise e
  end.

Definition is_ok {A} (r : result A) : bool :=
  match r with Ok _ => true | Raise _ => false end.

(** [l[i]] for a non-negative constant [i]: IndexError when out of range. *)
Definition getitem {A} (l : list A) (i : nat) : result A :=
  match l !! i with
  | Some a => Ok a
  | None => Raise IndexError
  end.

(** ** Python string methods *)

Module Str.

Definition LF : ascii := "010"%char.

(** [str.isspace] on one code point below 256: the Unicode white space of
    that range. *)
Definition isspace (c : ascii) : bool :=
  let n := nat_of_ascii c in
  ((9 <=? n) && (n <=? 13) || (28 <=? n) && (n <=? 31)
   || (n =? 32) || (n =? 133) || (n =? 160))%nat.

(** [s.replace(old, new)] for a one-character [old]; also
    [re.sub(old, new, s)] when [old] is an ordinary character. *)
Fixpoint replace (old : ascii) (new s : string) : string :=
  match s with
  | EmptyString => EmptyString
  | String c s' =>
      if Ascii.eqb c old then new +:+ replace old new s'
      else String c (replace old new s')
  end.

Fixpoint lstrip (s : string) : string :=
  match s with
  | EmptyString => EmptyString
  | String c s' => if isspace c then lstrip s' else s
  end.

Fixpoint rstrip (s : string) : string :=
  match s with
  | EmptyString => EmptyString
  | String c s' =>
      match rstrip s' with
      | EmptyString => if isspace c then EmptyString else String c EmptyString
      | r => String c r
      end
  end.

(** [s.strip()] *)
Definition strip (s : string) : string := rstrip (lstrip s).

Fixpoint find_from (sub s : string) (i : Z) : Z :=
  if String.prefix sub s then i
  else match s with
       | EmptyString => -1
       | String _ s' => find_from sub s' (i + 1)
       end.

(** [s.find(sub)]: the lowest index where [sub] occurs, [-1] if none. *)
Definition find (s sub : string) : Z := find_from sub s 0.

Fixpoint contains (c : ascii) (s : string) : bool :=
  match s with
  | EmptyString => false
  | String d s' => Ascii.eqb d c || contains c s'
  end.

Definition first (s : string) : option ascii :=
  match s with
  | EmptyString => None
  | String c _ => Some c
  end.



End Str.

(** Truth value of a Python int: [not n] holds exactly for [0]. *)
Definition py_not (n : Z) : bool := n =? 0.

(** ** The parsed page (BeautifulSoup) *)

#[local] Unset Elimination Schemes.
Inductive node :=
  | NavigableString (s : string)
  | Tag (name : string) (contents : list node).
#[local] Set Elimination Schemes.

(** All nodes below [n], in document order. *)
Fixpoint descendants (n : node) : list node :=
  match n with
  | NavigableString _ => []
  | Tag _ cs => flat_map (fun c => c :: descendants c) cs
  end.

Definition is_tag (name : string) (n : node) : bool :=
  match n with
  | NavigableString _ => false
  | Tag name' _ => String.eqb name' name
  end.

(** [n.find_all(name)] *)
Definition find_all (name : string) (n : node) : list node :=
  List.filter (is_tag name) (descendants n).

(** [n.text]: the strings below [n], concatenated. *)
Fixpoint text (n : node) : string :=
  match n with
  | NavigableString s => s
  | Tag _ cs => String.concat "" (List.map text cs)
  end.

(** [n.find('a') is not None] for a Tag [n]: some link below [n].  The
    script never evaluates this; it is the specification's notion of a name
    cell that "contains an embedded link". *)
Definition has_link (cell : node) : bool :=
  match find_all "a" cell with
  | [] => false
  | _ :: _ => true
  end.

(** ** Stage 1: extract *)

(** A row of the frame [extract] builds: both columns hold text. *)
Module Raw.
Record row := { Name : string; TA_USD_Billion : string }.
End Raw.

(** The body of the [for row in rows] loop, after the [count] test:
    [None] stands for [continue], [Some r] for the row appended to [df]. *)
Definition extract_row (row : node) : result (option Raw.row) :=
  let cell_data := find_all "td" row in
  match cell_data with
  | [] => Ok None
  | _ :: _ =>
      c1 ← getitem cell_data 1;
      let bank := Str.strip (Str.replace Str.LF "" (text c1)) in
      c2 ← getitem cell_data 2;
      let assets := Str.replace Str.LF "" (text c2) in
      if py_not (Str.find bank "a") then Ok None
      else Ok (Some {| Raw.Name := bank; Raw.TA_USD_Billion := assets |})
  end.

Fixpoint extract_loop (rows : list node) (count : nat) (df : list Raw.row)
  : result (list Raw.row) :=
  match rows with
  | [] => Ok df
  | row :: rows' =>
      if (10 <=? count)%nat then Ok df
      else
        r ← extract_row row;
        match r with
        | None => extract_loop rows' count df
        | Some rec => extract_loop rows' (S count) (df ++ [rec])
        end
  end.

(** [extract(url, attributes)] on the parsed page [soup]; [attributes] is
    the constant [INITIAL_ATTRIBUTES], the two fields of [Raw.row]. *)
Definition extract (soup : node) : result (list Raw.row) :=
  body ← getitem (find_all "tbody" soup) 0;
  let rows := find_all "tr" body in
  extract_loop rows 0 [].

(** ** float64 arithmetic *)

Module F64.

Definition prec : Z := 53.
Definition emax : Z := 1024.

Definition float := spec_float.

Definition mul : float → float → float := SFmul prec emax.
Definition div : float → float → float := SFdiv prec emax.

(** The float64 nearest to the integer [n] ([float(n)] for an int). *)
Definition of_Z (n : Z) : float := binary_normalize prec emax n 0 false.

(** The float64 nearest to [m / d] with the sign [s], for [m, d > 0]. *)
Definition of_ratio (s : bool) (m d : positive) : float :=
  SFdiv prec emax (S754_finite s m 0) (S754_finite false d 0).

(** The float64 nearest to [m * 10^e] with the sign [s]: what a correctly
    rounded decimal-to-binary conversion (strtod) returns; too large a
    value gives an infinity, too small a one a zero. *)
Definition of_decimal (s : bool) (m : N) (e : Z) : float :=
  match m with
  | N0 => S754_zero s
  | Npos p =>
      if 0 <=? e then of_ratio s (p * Z.to_pos (10 ^ e)) 1
      else of_ratio s p (Z.to_pos (10 ^ (- e)))
  end.

(** C [rint] in the default rounding mode: the nearest integer, ties to
    even, the sign kept. *)
Definition rint (x : float) : float :=
  match x with
  | S754_finite s m e =>
      if 0 <=? e then x
      else
        let '(mrs, _) := shr (shr_record_of_loc (Zpos m) loc_Exact) e (- e) in
        let n := round_nearest_even (shr_m mrs) (loc_of_shr_record mrs) in
        binary_normalize prec emax (cond_Zopp s n) 0 s
  | _ => x
  end.

(** [np.round(x, decimals)] on one float64, [decimals > 0]:
    multiply by the power of ten, [rint], divide. *)
Definition round (x : float) (decimals : nat) : float :=
  let f := of_Z (10 ^ Z.of_nat decimals) in
  div (rint (mul x f)) f.

(** [x >= 0] *)
Definition nonneg (x : float) : bool := SFleb (S754_zero false) x.

Definition is_finite (x : float) : bool :=
  match x with
  | S754_zero _ | S754_finite _ _ _ => true
  | _ => false
  end.

End F64.

(** ** The builtin [float(...)] *)

Module PyFloat.
Import F64.

Definition code (c : ascii) : nat := nat_of_ascii c.

(** [Py_ISSPACE]: the white space of the C locale. *)
Definition c_isspace (c : ascii) : bool :=
  ((9 <=? code c) && (code c <=? 13) || (code c =? 32))%nat.

Definition digit (c : ascii) : option N :=
  if ((48 <=? code c) && (code c <=? 57))%nat
  then Some (N.of_nat (code c - 48)) else None.

Definition is_digit (c : ascii) : bool :=
  match digit c with Some _ => true | None => false end.

(** Code points from 127 on become a space when they are white space and
    a question mark otherwise (none is a decimal digit below 256). *)
Definition to_ascii (c : ascii) : ascii :=
  if (code c <? 127)%nat then c
  else if Str.isspace c then " "%char else "?"%char.

Fixpoint map_chars (f : ascii → ascii) (s : string) : string :=
  match s with
  | EmptyString => EmptyString
  | String c s' => String (f c) (map_chars f s')
  end.

Fixpoint lskip (s : string) : string :=
  match s with
  | EmptyString => EmptyString
  | String c s' => if c_isspace c then lskip s' else s
  end.

Fixpoint rskip (s : string) : string :=
  match s with
  | EmptyString => EmptyString
  | String c s' =>
      match rskip s' with
      | EmptyString => if c_isspace c then EmptyString else String c EmptyString
      | r => String c r
      end
  end.

(** Underscores may only stand between two digits; they are dropped.
    [prev] is the character before [s]. *)
Fixpoint drop_underscores (prev : ascii) (s : string) : option string :=
  match s with
  | EmptyString => if Ascii.eqb prev "_" then None else Some EmptyString
  | String c s' =>
      if Ascii.eqb c "_" then
        if is_digit prev then drop_underscores c s' else None
      else if Ascii.eqb prev "_" && negb (is_digit c) then None
      else String c <$> drop_underscores c s'
  end.

Definition sign (s : string) : bool * string :=
  match s with
  | String "-" s' => (true, s')
  | String "+" s' => (false, s')
  | _ => (false, s)
  end.

(** The longest run of digits at the head of [s]: its value on top of
    [acc], its length on top of [n], and the rest of [s]. *)
Fixpoint digits (acc : N) (n : nat) (s : string) : N * nat * string :=
  match s with
  | EmptyString => (acc, n, s)
  | String c s' =>
      match digit c with
      | Some d => digits (10 * acc + d) (S n) s'
      | None => (acc, n, s)
      end
  end.

Definition lower (c : ascii) : ascii :=
  if ((65 <=? code c) && (code c <=? 90))%nat
  then ascii_of_nat (code c + 32) else c.

(** A decimal number filling all of [s]:
    [sign? (digit+ ('.' digit* )? | '.' digit+) ([eE] sign? digit+)?] *)
Definition decimal (s : string) : option float :=
  let '(neg, s1) := sign s in
  let '(i, ni, s2) := digits 0 0 s1 in
  let '(m, nf, s3) :=
    match s2 with
    | String "." t => digits i 0 t
    | _ => (i, 0%nat, s2)
    end in
  if (ni + nf =? 0)%nat then None
  else
    match s3 with
    | EmptyString => Some (of_decimal neg m (- Z.of_nat nf))
    | String c t =>
        if Ascii.eqb (lower c) "e" then
          let '(eneg, t1) := sign t in
          let '(x, nx, t2) := digits 0 0 t1 in
          match nx, t2 with
          | S _, EmptyString =>
              Some (of_decimal neg m (cond_Zopp eneg (Z.of_N x) - Z.of_nat nf))
          | _, _ => None
          end
        else None
    end.

(** [inf], [infinity] or [nan] with an optional sign, in any case. *)
Definition inf_or_nan (s : string) : option float :=
  let '(neg, s1) := sign s in
  let w := map_chars lower s1 in
  if String.eqb w "inf" || String.eqb w "infinity" then Some (S754_infinity neg)
  else if String.eqb w "nan" then Some S754_nan
  else None.

(** [float(s)] for a str [s]; [None] is ValueError. *)
Definition of_str (s : string) : option float :=
  let s1 := rskip (lskip (map_chars to_ascii s)) in
  match String.index 0 "_" s1 with
  | None => Some s1
  | Some _ => drop_underscores "000" s1
  end ≫= λ s2,
  match decimal s2 with
  | Some x => Some x
  | None => inf_or_nan s2
  end.

End PyFloat.

(** ** Printing a float64 *)

Module Repr.
Import F64.

(** The decimal digits of [n]. *)
Definition digits_of (n : Z) : string :=
  NilZero.string_of_uint (N.to_uint (Z.to_N n)).

(** [num / den < 10 ^ k] *)
Definition below_pow10 (num den k : Z) : bool :=
  if 0 <=? k then num <? den * 10 ^ k else num * 10 ^ (- k) <? den.

(** The least [k' >= k] with [num / den < 10 ^ k'], [fuel] steps at most. *)
Fixpoint decpt_from (fuel : nat) (k num den : Z) : Z :=
  match fuel with
  | O => k
  | S fuel' =>
      if below_pow10 num den k then k else decpt_from fuel' (k + 1) num den
  end.

(** Some [k] with [10 ^ k < num / den], a few units below the least one
    above: from the bit lengths, with [0.30103] for the logarithm of 2. *)
Definition decpt_below (num den : Z) : Z :=
  (Z.log2 num - Z.log2 den - 1) * 30103 / 100000 - 1.

(** [m * 2 ^ e] and [m' * 2 ^ e'] are the same number. *)
Definition same_value (x y : float) : bool :=
  match x, y with
  | S754_finite _ m e, S754_finite _ m' e' =>
      let d := Z.min e e' in
      Z.pos m * 2 ^ (e - d) =? Z.pos m' * 2 ^ (e' - d)
  | _, _ => false
  end.

(** The decimal [c * 10 ^ (k - n)] of [n] digits next to [x = num / den]
    that reads back as [x], the nearer one if both neighbours do. *)
Definition candidate (x : float) (num den k : Z) (n : Z) : option Z :=
  let j := n - k in
  let '(num', den') :=
    if 0 <=? j then (num * 10 ^ j, den) else (num, den * 10 ^ (- j)) in
  let lo := num' / den' in
  let r := num' mod den' in
  let reads c := same_value x (of_decimal false (Z.to_N c) (k - n)) in
  match reads lo, negb (r =? 0) && reads (lo + 1) with
  | true, true =>
      match 2 * r ?= den' with
      | Lt => Some lo
      | Gt => Some (lo + 1)
      | Eq => Some (if Z.even lo then lo else lo + 1)
      end
  | true, false => Some lo
  | false, true => Some (lo + 1)
  | false, false => None
  end.

(** The first of [n, n + 1, ...] digits that gives a candidate. *)
Fixpoint shortest_from (fuel : nat) (x : float) (num den k n : Z)
  : Z * Z :=
  match candidate x num den k n, fuel with
  | Some c, _ => (c, k - n)
  | None, S fuel' => shortest_from fuel' x num den k (n + 1)
  | None, O => (num * 10 ^ (n - k) / den, k - n)
  end.

Fixpoint strip_zeros (s : string) : string :=
  match s with
  | EmptyString => EmptyString
  | String c s' =>
      match strip_zeros s' with
      | EmptyString => if Ascii.eqb c "0" then EmptyString else String c EmptyString
      | r => String c r
      end
  end.

Fixpoint zeros (n : nat) : string :=
  match n with
  | O => EmptyString
  | S n' => String "0" (zeros n')
  end.

(** The shortest digits that read back as the positive [m * 2 ^ e], and
    the position of the decimal point after the first of them. *)
Definition shortest (m : positive) (e : Z) : string * Z :=
  let '(num, den) :=
    if 0 <=? e then (Z.pos m * 2 ^ e, 1) else (Z.pos m, 2 ^ (- e)) in
  let k := decpt_from 8 (decpt_below num den) num den in
  let '(c, p) := shortest_from 16 (S754_finite false m e) num den k 1 in
  let ds := digits_of c in
  (strip_zeros ds, Z.of_nat (String.length ds) + p).

Definition exponent (x : Z) : string :=
  (if x <? 0 then "-" else "+") +:+
  (if Z.abs x <? 10 then "0" else "") +:+ digits_of (Z.abs x).

(** [repr(x)] of a Python float, [str(x)] of a numpy float64. *)
Definition repr (x : float) : string :=
  match x with
  | S754_nan => "nan"
  | S754_infinity s => if s then "-inf" else "inf"
  | S754_zero s => if s then "-0.0" else "0.0"
  | S754_finite s m e =>
      let '(ds, decpt) := shortest m e in
      let n := Z.of_nat (String.length ds) in
      (if s then "-" else "") +:+
      (if (decpt <=? -4) || (16 <? decpt) then
         String.substring 0 1 ds +:+
         (if 1 <? n then "." +:+ String.substring 1 (String.length ds - 1) ds
          else "") +:+
         "e" +:+ exponent (decpt - 1)
       else if decpt <=? 0 then "0." +:+ zeros (Z.to_nat (- decpt)) +:+ ds
       else if n <=? decpt then ds +:+ zeros (Z.to_nat (decpt - n)) +:+ ".0"
       else String.substring 0 (Z.to_nat decpt) ds +:+ "." +:+
            String.substring (Z.to_nat decpt) (Z.to_nat (n - decpt)) ds)
  end.

End Repr.

(** ** Stage 2: transform *)

(** A cell of the frame [pd.read_csv] returns: a column of numbers holds
    float64 or int64 values (NaN where the file has nothing), a column of
    truth values bools, any other column the text of the file. *)
Inductive scalar :=
  | SFloat (x : F64.float)
  | SInt (n : Z)
  | SBool (b : bool)
  | SStr (s : string).

(** [float(v)] *)
Definition py_float (v : scalar) : result F64.float :=
  match v with
  | SFloat x => Ok x
  | SInt n => Ok (F64.of_Z n)
  | SBool b => Ok (F64.of_Z (if b then 1 else 0))
  | SStr s =>
      match PyFloat.of_str s with
      | Some x => Ok x
      | None => Raise ValueError
      end
  end.

(** [df.iloc[i, j]] *)
Definition iloc (df : list (list scalar)) (i j : nat) : result scalar :=
  r ← getitem df i; getitem r j.

(** A row of the frame [transform] returns. *)
Module Final.
Record row := {
  Name : string;
  TA_USD_Billion : F64.float;
  TA_GBP_Billion : F64.float;
  TA_EUR_Billion : F64.float;
  TA_INR_Billion : F64.float
}.
End Final.

(** [df.replace(old, new, regex=True)] on a frame of text columns. *)
Definition df_replace (old : ascii) (new : string) (df : list Raw.row)
  : list Raw.row :=
  List.map (λ r, {| Raw.Name := Str.replace old new (Raw.Name r);
                    Raw.TA_USD_Billion :=
                      Str.replace old new (Raw.TA_USD_Billion r) |}) df.

(** [df.astype({'TA_USD_Billion': float})]: a new frame, or ValueError at
    the first text [float] rejects. *)
Fixpoint astype_float (df : list Raw.row) : result (list (string * F64.float)) :=
  match df with
  | [] => Ok []
  | r :: df' =>
      match PyFloat.of_str (Raw.TA_USD_Billion r) with
      | None => Raise ValueError
      | Some x => rest ← astype_float df'; Ok ((Raw.Name r, x) :: rest)
      end
  end.

(** Statements of [transform]: they run on the frame object the caller
    passed, may replace its contents, and return or raise. *)
Definition stmt (A : Type) : Type := list Raw.row → list Raw.row * result A.

#[global] Instance stmt_ret : MRet stmt := λ _ a σ, (σ, Ok a).
#[global] Instance stmt_bind : MBind stmt := λ _ _ f m σ,
  match m σ with
  | (σ', Ok a) => f a σ'
  | (σ', Raise e) => (σ', Raise e)
  end.

Definition lift {A} (r : result A) : stmt A := λ σ, (σ, r).
Definition get : stmt (list Raw.row) := λ σ, (σ, Ok σ).
Definition modify (f : list Raw.row → list Raw.row) : stmt unit :=
  λ σ, (f σ, Ok ()).

(** [float(df_rates.iloc[i, 1])]: the rate read from row [i]. *)
Definition rate_at (rates : list (list scalar)) (i : nat) : result F64.float :=
  iloc rates i 1 ≫= py_float.

(** Lines 80 to 82 on one row of the typed frame. *)
Definition with_currencies (rate_eur rate_gbp rate_inr : F64.float)
    (r : string * F64.float) : Final.row :=
  let '(name, usd) := r in
  {| Final.Name := name;
     Final.TA_USD_Billion := usd;
     Final.TA_GBP_Billion := F64.round (F64.mul usd rate_gbp) 2;
     Final.TA_EUR_Billion := F64.round (F64.mul usd rate_eur) 2;
     Final.TA_INR_Billion := F64.round (F64.mul usd rate_inr) 2 |}.

(** [transform(df, rates)], with [rates] the frame [pd.read_csv] made of the
    rate file (its header line is no row of the frame).  The first component
    of the result is the caller's frame after the call, the second the
    returned frame or the exception. *)
Definition transform (rates : list (list scalar)) : stmt (list Final.row) :=
  rate_eur ← lift (rate_at rates 0);
  rate_gbp ← lift (rate_at rates 1);
  rate_inr ← lift (rate_at rates 2);
  modify (df_replace "," "");;
  df ← get;
  df ← lift (astype_float df);
  mret (List.map (with_currencies rate_eur rate_gbp rate_inr) df).

(** ** Stage 3: load_to_csv *)

Definition FINAL_ATTRIBUTES : list string :=
  ["Name"; "TA_USD_Billion"; "TA_GBP_Billion"; "TA_EUR_Billion";
   "TA_INR_Billion"]%string.

(** The [csv] writer as [DataFrame.to_csv] sets it up: comma as delimiter,
    the double quote as quote character, doubled inside a quoted field,
    minimal quoting, and the line terminator of the platform, here the line
    feed. *)
Module Csv.

Definition QUOTE : ascii := "034"%char.

(** The characters that force a field into quotes: the delimiter, the
    quote character and the characters of the line terminator. *)
Definition special (c : ascii) : bool :=
  Ascii.eqb c "," || Ascii.eqb c QUOTE || Ascii.eqb c Str.LF.

Fixpoint any (p : ascii → bool) (s : string) : bool :=
  match s with
  | EmptyString => false
  | String c s' => p c || any p s'
  end.

Fixpoint escape (s : string) : string :=
  match s with
  | EmptyString => EmptyString
  | String c s' =>
      if Ascii.eqb c QUOTE then String QUOTE (String QUOTE (escape s'))
      else String c (escape s')
  end.

Definition field (s : string) : string :=
  if any special s then String QUOTE (escape s +:+ String QUOTE EmptyString)
  else s.

Fixpoint join (fields : list string) : string :=
  match fields with
  | [] => EmptyString
  | f :: fields' =>
      match fields' with
      | [] => field f
      | _ :: _ => field f +:+ String "," (join fields')
      end
  end.

(** [writer.writerow(row)]; a row that is one empty field is written as a
    pair of quotes. *)
Definition writerow (row : list string) : string :=
  match row with
  | [EmptyString] => String QUOTE (String QUOTE EmptyString)
  | _ => join row
  end +:+ String Str.LF EmptyString.

Fixpoint writerows (rows : list (list string)) : string :=
  match rows with
  | [] => EmptyString
  | row :: rows' => writerow row +:+ writerows rows'
  end.

Inductive state :=
  | StartRecord
  | StartField
  | InField
  | InQuotedField
  | QuoteInQuotedField.

(** Modelled from the spec: the reader of the flat file.  The repository
    writes the file and never reads it back; "re-reading" is taken as
    parsing the delimited text in the dialect it was written in: records end
    at a line feed, fields at a comma, a field in double quotes runs to the
    closing quote, a doubled quote inside it standing for one.  [fld] is the
    field read so far, [row] the fields of the record before it; [None] is
    a text that is no such file. *)
Fixpoint reader (st : state) (fld : string) (row : list string) (s : string)
  : option (list (list string)) :=
  match s with
  | EmptyString =>
      match st with
      | StartRecord => Some []
      | StartField => Some [row ++ [EmptyString]]
      | InField | QuoteInQuotedField => Some [row ++ [fld]]
      | InQuotedField => None
      end
  | String c s' =>
      match st with
      | StartRecord | StartField =>
          if Ascii.eqb c Str.LF then
            cons (match st with
                  | StartRecord => []
                  | _ => row ++ [EmptyString]
                  end) <$> reader StartRecord EmptyString [] s'
          else if Ascii.eqb c "," then
            reader StartField EmptyString (row ++ [EmptyString]) s'
          else if Ascii.eqb c QUOTE then
            reader InQuotedField EmptyString row s'
          else reader InField (String c EmptyString) row s'
      | InField =>
          if Ascii.eqb c Str.LF then
            cons (row ++ [fld]) <$> reader StartRecord EmptyString [] s'
          else if Ascii.eqb c "," then
            reader StartField EmptyString (row ++ [fld]) s'
          else reader InField (fld +:+ String c EmptyString) row s'
      | InQuotedField =>
          if Ascii.eqb c QUOTE then reader QuoteInQuotedField fld row s'
          else reader InQuotedField (fld +:+ String c EmptyString) row s'
      | QuoteInQuotedField =>
          if Ascii.eqb c QUOTE then
            reader InQuotedField (fld +:+ String QUOTE EmptyString) row s'
          else if Ascii.eqb c Str.LF then
            cons (row ++ [fld]) <$> reader StartRecord EmptyString [] s'
          else if Ascii.eqb c "," then
            reader StartField EmptyString (row ++ [fld]) s'
          else None
      end
  end.

(** The records of a file. *)
Definition read (s : string) : option (list (list string)) :=
  reader StartRecord EmptyString [] s.

End Csv.

(** A float64 cell as [to_csv] prints it: nothing for NaN. *)
Definition csv_cell (x : F64.float) : string :=
  match x with
  | S754_nan => EmptyString
  | _ => Repr.repr x
  end.

Definition csv_fields (r : Final.row) : list string :=
  [Final.Name r;
   csv_cell (Final.TA_USD_Billion r);
   csv_cell (Final.TA_GBP_Billion r);
   csv_cell (Final.TA_EUR_Billion r);
   csv_cell (Final.TA_INR_Billion r)].

(** The text [df.to_csv(filename, index=False)] writes: the column names,
    then a line per row, without the index. *)
Definition to_csv (df : list Final.row) : string :=
  Csv.writerows (FINAL_ATTRIBUTES :: List.map csv_fields df).

(** [load_to_csv(df, filename)] on the files by name: the file is created
    or overwritten. *)
Definition load_to_csv (df : list Final.row) (filename : string)
    (files : gmap string string) : gmap string string :=
  <[filename := to_csv df]> files.

(** ** Stage 4: load_to_db *)

(** The SQLite database behind a connection: its tables by name. *)
Module Sql.
Inductive value :=
  | Null
  | Real (x : F64.float)
  | Text (s : string).
Record table := { columns : list string; rows : list (list value) }.
End Sql.

(** The [if_exists] argument of [DataFrame.to_sql]. *)
Inductive if_exists := IfExistsFail | IfExistsReplace | IfExistsAppend.

(** A float64 as [to_sql] binds it: NaN is stored as NULL. *)
Definition sql_real (x : F64.float) : Sql.value :=
  match x with
  | S754_nan => Sql.Null
  | _ => Sql.Real x
  end.

Definition sql_row (r : Final.row) : list Sql.value :=
  [Sql.Text (Final.Name r);
   sql_real (Final.TA_USD_Billion r);
   sql_real (Final.TA_GBP_Billion r);
   sql_real (Final.TA_EUR_Billion r);
   sql_real (Final.TA_INR_Billion r)].

(** [df.to_sql(name, con, if_exists=mode, index=False)]: the database after
    the call, and the number of rows written or the exception.  An existing
    table is kept and refused ([fail]), dropped and created anew
    ([replace]), or extended ([append]; the script never appends, and a
    table with other columns is refused here). *)
Definition to_sql (df : list Final.row) (name : string) (mode : if_exists)
    (con : gmap string Sql.table) : gmap string Sql.table * result nat :=
  let fresh := {| Sql.columns := FINAL_ATTRIBUTES;
                  Sql.rows := List.map sql_row df |} in
  match con !! name, mode with
  | None, _ | Some _, IfExistsReplace =>
      (<[name := fresh]> con, Ok (length df))
  | Some _, IfExistsFail => (con, Raise ValueError)
  | Some t, IfExistsAppend =>
      if decide (Sql.columns t = FINAL_ATTRIBUTES) then
        (<[name := {| Sql.columns := Sql.columns t;
                      Sql.rows := Sql.rows t ++ List.map sql_row df |}]> con,
         Ok (length df))
      else (con, Raise OperationalError)
  end.

(** [load_to_db(df, table, connection)] *)
Definition load_to_db (df : list Final.row) (table : string)
    (connection : gmap string Sql.table)
  : gmap string Sql.table * result unit :=
  let '(connection', r) := to_sql df table IfExistsReplace connection in
  (connection', r ≫= λ _, Ok ()).

(** ** Logging *)

Definition LOG_FILE : string := "code_log.txt".

(** What [datetime.now()] returns. *)
Record datetime := {
  year : nat;
  month : nat;
  day : nat;
  hour : nat;
  minute : nat;
  second : nat
}.

Module Time.

(** The abbreviated month names of the C locale; [m] counts from 1. *)
Definition month_abbr (m : nat) : string :=
  nth (m - 1) ["Jan"; "Feb"; "Mar"; "Apr"; "May"; "Jun"; "Jul"; "Aug";
               "Sep"; "Oct"; "Nov"; "Dec"]%string EmptyString.

(** A number in two digits at least. *)
Definition padded (n : nat) : string :=
  (if (n <? 10)%nat then "0" else "") +:+ Repr.digits_of (Z.of_nat n).

(** The conversions the script's format uses; any other one is copied. *)
Definition directive (c : ascii) (t : datetime) : string :=
  match c with
  | "Y"%char => Repr.digits_of (Z.of_nat (year t))
  | "h"%char | "b"%char => month_abbr (month t)
  | "d"%char => padded (day t)
  | "H"%char => padded (hour t)
  | "M"%char => padded (minute t)
  | "S"%char => padded (second t)
  | "%"%char => "%"
  | _ => String "%" (String c EmptyString)
  end.

(** [t.strftime(format)], for years of four digits. *)
Fixpoint strftime (format : string) (t : datetime) : string :=
  match format with
  | EmptyString => EmptyString
  | String "%" (String c format') => directive c t +:+ strftime format' t
  | String c format' => String c (strftime format' t)
  end.

End Time.

(** [log_progress(message)] at the time [now], on the files by name: one
    write at the end of the log file, which is created when missing. *)
Definition log_progress (now : datetime) (message : string)
    (files : gmap string string) : gmap string string :=
  let timestamp_format := "%Y-%h-%d-%H:%M:%S"%string in
  let timestamp := Time.strftime timestamp_format now in
  <[LOG_FILE := default EmptyString (files !! LOG_FILE) +:+
                (timestamp +:+ " : " +:+ message +:+ String Str.LF EmptyString)]>
    files.

(** ** The script *)

Definition OUTPUT_CSV : string := "Largest_banks_data.csv".
Definition TABLE : string := "Largest_banks".

Section Script.

(** The frames [pd.read_sql] returns, and [pd.read_sql(query, connection)]
    itself on the tables of the database: the SQL engine is left open. *)
Context {frame : Type}.
Variable read_sql : string → gmap string Sql.table → result frame.

(** What the script acts on: the files by name, the tables of the database
    file [Banks.db], and what was printed. *)
Record world := {
  files : gmap string string;
  tables : gmap string Sql.table;
  stdout : list (string + frame)
}.

(** Statements of the script: they change the world and return or raise. *)
Definition prog (A : Type) : Type := world → world * result A.

Definition prog_ret {A} (a : A) : prog A := λ w, (w, Ok a).
Definition prog_bind {A B} (m : prog A) (f : A → prog B) : prog B := λ w,
  match m w with
  | (w', Ok a) => f a w'
  | (w', Raise e) => (w', Raise e)
  end.

Definition on_files (f : gmap string string → gmap string string)
  : prog unit :=
  λ w, ({| files := f (files w); tables := tables w; stdout := stdout w |},
        Ok ()).

Definition print (x : string + frame) : prog unit :=
  λ w, ({| files := files w; tables := tables w;
           stdout := stdout w ++ [x] |}, Ok ()).

(** [run_query(query, connection)] *)
Definition run_query (query : string) : prog unit :=
  prog_bind (print (inl query)) (λ _,
  prog_bind (λ w, (w, read_sql query (tables w))) (λ output,
  print (inr output))).

(** The statements at the end of the file, lines 104 to 127, on the parsed
    page [soup], the frame [rates] of the rate file and the successive
    readings [clock 0], [clock 1], ... of the time. *)
Definition main (soup : node) (rates : list (list scalar))
    (clock : nat → datetime) : prog unit :=
  prog_bind (on_files (log_progress (clock 0%nat)
    "Preliminaries complete. Initiating ETL process")) (λ _,
  prog_bind (λ w, (w, extract soup)) (λ extracted,
  prog_bind (on_files (log_progress (clock 1%nat)
    "Data extraction complete. Initiating transformation process")) (λ _,
  prog_bind (λ w, (w, (transform rates extracted).2)) (λ transformed,
  prog_bind (on_files (log_progress (clock 2%nat)
    "Data transformation complete. Initiating loading process")) (λ _,
  prog_bind (on_files (load_to_csv transformed OUTPUT_CSV)) (λ _,
  prog_bind (on_files (log_progress (clock 3%nat)
    "Data saved to CSV file")) (λ _,
  prog_bind (on_files (log_progress (clock 4%nat)
    "SQL connection initiated")) (λ _,
  prog_bind (λ w,
    let '(tables', r) := load_to_db transformed TABLE (tables w) in
    ({| files := files w; tables := tables'; stdout := stdout w |}, r)) (λ _,
  prog_bind (on_files (log_progress (clock 5%nat)
    "Data loaded to database as a table. Executing queries")) (λ _,
  prog_bind (run_query "SELECT * FROM Largest_banks") (λ _,
  prog_bind (run_query "SELECT AVG(TA_GBP_Billion) FROM Largest_banks") (λ _,
  prog_bind (run_query "SELECT Name from Largest_banks LIMIT 5") (λ _,
  prog_bind (on_files (log_progress (clock 6%nat) "Process complete")) (λ _,
  on_files (log_progress (clock 7%nat) "Server connection closed"))))))))))))))).

End Script.

(** The scenario of the specification: a rate table and one bank. *)
Module Scenario.
Definition rates : list (list scalar) :=
  [[SStr "EUR"; SFloat (F64.of_decimal false 93 (-2))];
   [SStr "GBP"; SFloat (F64.of_decimal false 8 (-1))];
   [SStr "INR"; SFloat (F64.of_decimal false 821 (-1))]].
Definition input : list Raw.row :=
  [{| Raw.Name := "Bank A"; Raw.TA_USD_Billion := "1,000.00" |}].
Definition expected : list Final.row :=
  [{| Final.Name := "Bank A";
      Final.TA_USD_Billion := F64.of_Z 1000;
      Final.TA_GBP_Billion := F64.of_Z 800;
      Final.TA_EUR_Billion := F64.of_Z 930;
      Final.TA_INR_Billion := F64.of_Z 82100 |}].
End Scenario.

(** ** Notions the properties are stated with *)

(** The cell the script reads the bank name from. *)
Definition name_cell (row : node) : option node := find_all "td" row !! 1%nat.

(** The specification's qualifying row: at least one data cell, and a link
    in the name cell. *)
Definition qualifies (row : node) : bool :=
  match find_all "td" row with
  | [] => false
  | _ :: _ =>
      match name_cell row with
      | Some c => has_link c
      | None => false
      end
  end.

(** The two texts of a row, as the script cleans them. *)
Definition row_values (row : node) : option Raw.row :=
  c1 ← find_all "td" row !! 1%nat;
  c2 ← find_all "td" row !! 2%nat;
  Some {| Raw.Name := Str.strip (Str.replace Str.LF "" (text c1));
          Raw.TA_USD_Billion := Str.replace Str.LF "" (text c2) |}.

(** What the loop keeps of a row that does not fault. *)
Definition kept (row : node) : option Raw.row :=
  match extract_row row with
  | Ok (Some r) => Some r
  | _ => None
  end.

(** Pages to evaluate the Extractor on. *)
Module Page.
Definition td (s : string) : node := Tag "td" [NavigableString s].
Definition th (s : string) : node := Tag "th" [NavigableString s].
Definition linked (s : string) : node :=
  Tag "td" [Tag "a" [NavigableString s]].
Definition tr (cells : list node) : node := Tag "tr" cells.
Definition page (rows : list node) : node :=
  Tag "[document]" [Tag "table" [Tag "tbody" rows]].
End Page.

(** The condition of line 56 under which the row is kept. *)
Definition name_test (c : node) : bool :=
  negb (py_not (Str.find (Str.strip (Str.replace Str.LF "" (text c))) "a")).

(** Rows the loop can process: no data cell, or at least three. *)
Definition zero_or_three_cells (row : node) : bool :=
  match find_all "td" row with
  | [_] | [_; _] => false
  | _ => true
  end.

(** Rows on which line 56 answers as a search for a link would. *)
Definition name_test_finds_link (row : node) : bool :=
  match name_cell row with
  | Some c => Bool.eqb (name_test c) (has_link c)
  | None => true
  end.

(** [df] holds, in page order, the values of the first ten qualifying rows
    of the first table body of [soup]. *)
Definition first_ten_qualifying (soup : node) (df : list Raw.row) : Prop :=
  ∃ body, find_all "tbody" soup !! 0%nat = Some body ∧
    Forall2 (λ row r, row_values row = Some r)
      (take 10 (List.filter qualifies (find_all "tr" body))) df.

(** A row with at least one data cell. *)
Definition has_data_cell (row : node) : bool :=
  match find_all "td" row with
  | [] => false
  | _ :: _ => true
  end.

(** A returned row with its EUR and GBP values exchanged. *)
Definition swap_eur_gbp (o : Final.row) : Final.row :=
  {| Final.Name := Final.Name o;
     Final.TA_USD_Billion := Final.TA_USD_Billion o;
     Final.TA_GBP_Billion := Final.TA_EUR_Billion o;
     Final.TA_EUR_Billion := Final.TA_GBP_Billion o;
     Final.TA_INR_Billion := Final.TA_INR_Billion o |}.

(** The line [log_progress] writes. *)
Definition log_line (now : datetime) (message : string) : string :=
  Time.strftime "%Y-%h-%d-%H:%M:%S" now +:+ " : " +:+ message +:+
  String Str.LF EmptyString.

(** The lines of the given messages, logged at the readings [clock i],
    [clock (i + 1)], ... of the time. *)
Fixpoint log_lines (clock : nat → datetime) (i : nat) (messages : list string)
  : string :=
  match messages with
  | [] => EmptyString
  | m :: messages' => log_line (clock i) m +:+ log_lines clock (S i) messages'
  end.

(** The messages of the script, in the order it logs them. *)
Definition MILESTONES : list string :=
  ["Preliminaries complete. Initiating ETL process";
   "Data extraction complete. Initiating transformation process";
   "Data transformation complete. Initiating loading process";
   "Data saved to CSV file";
   "SQL connection initiated";
   "Data loaded to database as a table. Executing queries";
   "Process complete";
   "Server connection closed"]%string.

(** The three queries of the script. *)
Definition QUERIES : list string :=
  ["SELECT * FROM Largest_banks";
   "SELECT AVG(TA_GBP_Billion) FROM Largest_banks";
   "SELECT Name from Largest_banks LIMIT 5"]%string.

Module StrCount.
(** The number of times [c] occurs in [s]. *)
Fixpoint count (c : ascii) (s : string) : nat :=
  match s with
  | EmptyString => O
  | String d s' => ((if Ascii.eqb d c then 1 else 0) + count c s')%nat
  end.
End StrCount.

(** The files once the first three milestones are logged and the flat file
    is written, up to the message on the database load. *)
Definition files_loaded (clock : nat → datetime) (out : list Final.row)
    (fs : gmap string string) : gmap string string :=
  log_progress (clock 5%nat)
    "Data loaded to database as a table. Executing queries"
    (log_progress (clock 4%nat) "SQL connection initiated"
       (log_progress (clock 3%nat) "Data saved to CSV file"
          (load_to_csv out OUTPUT_CSV
             (log_progress (clock 2%nat)
                "Data transformation complete. Initiating loading process"
                (log_progress (clock 1%nat)
                   "Data extraction complete. Initiating transformation process"
                   (log_progress (clock 0%nat)
                      "Preliminaries complete. Initiating ETL process"
                      fs)))))).

(** A run to evaluate the script on: the page of the scenario, a fixed
    time, nothing on disk, and queries answered by the number of rows of
    the table. *)
Module Run.
Definition soup : node :=
  Page.page [Page.tr [Page.td "1"; Page.td "Bank A"; Page.td "1,000.00"]].
Definition noon (_ : nat) : datetime :=
  {| year := 2026; month := 11; day := 4; hour := 12; minute := 0;
     second := 0 |}.
Definition nothing : @world nat := {| files := ∅; tables := ∅; stdout := [] |}.
Definition row_count (query : string) (db : gmap string Sql.table)
  : result nat :=
  match db !! TABLE with
  | Some t => Ok (length (Sql.rows t))
  | None => Raise DatabaseError
  end.
Definition no_engine (query : string) (db : gmap string Sql.table)
  : result nat := Raise DatabaseError.
End Run.

(** A time whose year has four digits and whose other fields are in the
    range of a date. *)
Definition valid_datetime (t : datetime) : bool :=
  (1000 <=? Z.of_nat (year t)) && (Z.of_nat (year t) <=? 9999) &&
  ((1 <=? month t) && (month t <=? 12) &&
   (1 <=? day t) && (day t <=? 31) &&
   (hour t <=? 23) && (minute t <=? 59) && (second t <=? 59))%nat.

(** * Properties *)

(** ** Strings *)

Section StrFacts.
Import Str.

Lemma contains_app c s t :
  contains c (s +:+ t) = contains c s || contains c t.
Proof.
  induction s as [|d s IH]; simpl; [done|].
  by rewrite IH, orb_assoc.
Qed.

Lemma replace_removes old new s :
  contains old new = false → contains old (replace old new s) = false.
Proof.
  intros Hnew. induction s as [|c s IH]; simpl; [done|].
  destruct (Ascii.eqb c old) eqn:E; simpl.
  - by rewrite contains_app, Hnew, IH.
  - by rewrite E, IH.
Qed.

Lemma replace_absent old new s :
  contains old s = false → replace old new s = s.
Proof.
  induction s as [|c s IH]; simpl; [done|].
  destruct (Ascii.eqb c old); simpl; [done|].
  intros H. by rewrite IH.
Qed.

Lemma replace_present old s :
  contains old s = true → replace old "" s ≠ s.
Proof.
  intros H E. pose proof (replace_removes old "" s eq_refl) as R.
  rewrite E in R. congruence.
Qed.

Lemma contains_lstrip c s :
  contains c s = false → contains c (lstrip s) = false.
Proof.
  induction s as [|d s IH]; simpl; [done|].
  destruct (isspace d); simpl; [|done].
  intros [_ H]%orb_false_elim. auto.
Qed.

Lemma contains_rstrip c s :
  contains c s = false → contains c (rstrip s) = false.
Proof.
  induction s as [|d s IH]; simpl; [done|].
  intros [Hd H]%orb_false_elim. specialize (IH H).
  destruct (rstrip s) as [|e r]; simpl in *.
  - destruct (isspace d); simpl; [done|]. by rewrite Hd.
  - by rewrite Hd.
Qed.





Lemma contains_strip c s :
  contains c s = false → contains c (strip s) = false.
Proof. intros H. by apply contains_rstrip, contains_lstrip. Qed.

(** [s.find(sub)] is [0] exactly when [s] starts with [sub]. *)
Lemma find_from_ge sub s i : find_from sub s i = -1 ∨ i ≤ find_from sub s i.
Proof.
  revert i. induction s as [|c s IH]; intros i; cbn [find_from].
  - destruct (String.prefix sub ""); lia.
  - destruct (String.prefix sub (String c s)); [lia|].
    destruct (IH (i + 1)); lia.
Qed.

Lemma find_zero s sub : py_not (find s sub) = String.prefix sub s.
Proof.
  unfold py_not, find. destruct s as [|c s]; cbn [find_from].
  - by destruct (String.prefix sub "").
  - destruct (String.prefix sub (String c s)); [done|].
    destruct (find_from_ge sub s (0 + 1)); lia.
Qed.

End StrFacts.

(** ** The Extractor *)

Lemma extract_row_cases row :
  match find_all "td" row with
  | [] => extract_row row = Ok None
  | [_] | [_; _] => extract_row row = Raise IndexError
  | _ :: c1 :: c2 :: _ =>
      extract_row row =
        let bank := Str.strip (Str.replace Str.LF "" (text c1)) in
        if String.prefix "a" bank then Ok None
        else Ok (Some {| Raw.Name := bank;
                         Raw.TA_USD_Billion := Str.replace Str.LF "" (text c2) |})
  end.
Proof.
  unfold extract_row.
  destruct (find_all "td" row) as [|c0 [|c1 [|c2 cs]]]; try done.
  cbn -[Str.strip Str.replace Str.find String.prefix py_not].
  by rewrite find_zero.
Qed.

Lemma extract_row_some row r :
  extract_row row = Ok (Some r) → row_values row = Some r.
Proof.
  pose proof (extract_row_cases row) as H. unfold row_values.
  destruct (find_all "td" row) as [|c0 [|c1 [|c2 cs]]]; try congruence.
  cbn -[Str.strip Str.replace String.prefix] in *. rewrite H.
  destruct (String.prefix _ _); congruence.
Qed.

Lemma extract_loop_cons row rows count df :
  extract_loop (row :: rows) count df =
    if (10 <=? count)%nat then Ok df
    else
      r ← extract_row row;
      match r with
      | None => extract_loop rows count df
      | Some rec => extract_loop rows (S count) (df ++ [rec])
      end.
Proof. done. Qed.

Lemma extract_loop_kept rows count df :
  Forall (λ row, is_ok (extract_row row) = true) rows →
  extract_loop rows count df =
    Ok (df ++ take (10 - count)%nat (omap kept rows)).
Proof.
  intros Hok. revert count df.
  induction Hok as [|row rows Hrow _ IH]; intros count df.
  - cbn [omap list_omap extract_loop]. by rewrite take_nil, app_nil_r.
  - rewrite extract_loop_cons. cbn [omap list_omap].
    destruct (Nat.leb_spec 10 count) as [E|E].
    + replace (10 - count)%nat with 0%nat by lia.
      by rewrite take_0, app_nil_r.
    + unfold kept at 1.
      destruct (extract_row row) as [[r|]|e]; try done; cbn [mbind result_bind].
      * rewrite IH, <- app_assoc.
        by replace (10 - count)%nat with (S (10 - S count)) by lia.
      * apply IH.
Qed.

Lemma extract_row_ok_iff row :
  is_ok (extract_row row) = zero_or_three_cells row.
Proof.
  pose proof (extract_row_cases row) as H. unfold zero_or_three_cells.
  destruct (find_all "td" row) as [|c0 [|c1 [|c2 cs]]]; rewrite H; try done.
  cbn zeta. by destruct (String.prefix _ _).
Qed.

Lemma kept_qualifies row :
  zero_or_three_cells row = true → name_test_finds_link row = true →
  kept row = if qualifies row then row_values row else None.
Proof.
  unfold zero_or_three_cells, name_test_finds_link, kept, qualifies,
    row_values, name_cell, name_test.
  pose proof (extract_row_cases row) as H.
  destruct (find_all "td" row) as [|c0 [|c1 [|c2 cs]]]; try done.
  - by rewrite H.
  - cbn -[Str.strip Str.replace String.prefix Str.find py_not] in *.
    rewrite H, find_zero. intros _ E%eqb_prop. rewrite <- E.
    by destruct (String.prefix _ _).
Qed.

Lemma kept_filter_qualifies rows :
  Forall (λ row, zero_or_three_cells row = true) rows →
  Forall (λ row, name_test_finds_link row = true) rows →
  Forall2 (λ row r, row_values row = Some r)
    (List.filter qualifies rows) (omap kept rows).
Proof.
  induction 1 as [|row rows H3 _ IH]; inversion_clear 1 as [|?? Hl Hls];
    cbn [List.filter omap list_omap]; [constructor|].
  rewrite (kept_qualifies row H3 Hl).
  destruct (qualifies row) eqn:Q; [|auto].
  assert (is_Some (row_values row)) as [r Hr].
  { unfold qualifies, zero_or_three_cells, row_values in *.
    destruct (find_all "td" row) as [|c0 [|c1 [|c2 cs]]]; try done. }
  rewrite Hr. constructor; auto.
Qed.

Lemma forallb_Forall_true {A} (f : A → bool) (l : list A) :
  forallb f l = true → Forall (λ x, f x = true) l.
Proof.
  induction l as [|x l IH]; cbn [forallb]; [constructor|].
  intros [Hx Hl]%andb_prop. constructor; auto.
Qed.

Section Extractor.
Import Page.

(** C1 (evaluation at the failing input): a row whose name cell holds plain
    text and no link is selected all the same.  Line 56 calls [find] on the
    cleaned text of the cell, so it looks for the letter a at the head of
    the name, never for a link. *)
Theorem C1_row_without_link_is_selected :
  let row := tr [td "1"; td "Bank X"; td "5,000.1"] in
  (has_link <$> name_cell row) = Some false ∧
  qualifies row = false ∧
  extract (page [row]) =
    Ok [{| Raw.Name := "Bank X"; Raw.TA_USD_Billion := "5,000.1" |}].
Proof. by vm_compute. Qed.

(** The same test drops a row whose linked name starts with the letter a. *)
Example linked_name_in_a_is_dropped :
  let row := tr [td "1"; linked "abc Bank"; td "5,000.1"] in
  qualifies row = true ∧ extract (page [row]) = Ok [].
Proof. by vm_compute. Qed.

(** C3 (counterexample): a page whose only row has two data cells, the
    second with a link.  The row qualifies, yet the Extractor raises
    IndexError and returns no sequence at all. *)
Lemma C3_two_cell_row_counterexample :
  let soup := page [tr [td "1"; linked "Bank X"]] in
  List.filter qualifies [tr [td "1"; linked "Bank X"]] ≠ [] ∧
  ¬ ∃ df, extract soup = Ok df ∧ first_ten_qualifying soup df.
Proof.
  split; [by vm_compute|]. intros (df & H & _). by vm_compute in H.
Qed.

(** C3 (amended): on a page that has a table body, whose rows have no data
    cell or at least three, and where line 56 answers as a search for a link
    would, the Extractor returns the values of the first ten qualifying rows
    in page order: ten records when ten rows qualify, all of them
    otherwise. *)
Theorem C3_first_ten_qualifying_rows soup body :
  find_all "tbody" soup !! 0%nat = Some body →
  forallb zero_or_three_cells (find_all "tr" body) = true →
  forallb name_test_finds_link (find_all "tr" body) = true →
  ∃ df, extract soup = Ok df ∧ first_ten_qualifying soup df ∧
    length df =
      (10 `min` length (List.filter qualifies (find_all "tr" body)))%nat.
Proof.
  intros Hbody H3 Hl.
  apply forallb_Forall_true in H3.
  apply forallb_Forall_true in Hl.
  assert (Forall2 (λ row r, row_values row = Some r)
    (take 10 (List.filter qualifies (find_all "tr" body)))
    (take 10 (omap kept (find_all "tr" body)))) as HF.
  { apply Forall2_take. by apply kept_filter_qualifies. }
  exists (take 10 (omap kept (find_all "tr" body))). split; [|split].
  - unfold extract, getitem. rewrite Hbody. cbn [mbind result_bind].
    rewrite extract_loop_kept; [done|].
    eapply Forall_impl; [exact H3|]. intros row. cbv beta.
    by rewrite extract_row_ok_iff.
  - exists body. done.
  - apply Forall2_length in HF.
    rewrite <- HF, length_take. lia.
Qed.

Lemma C3_first_ten_qualifying_rows_witness :
  let body :=
    Tag "tbody" [tr [th "Rank"; th "Bank name"; th "Total assets"];
                 tr [td "1"; linked "Bank X"; td "5,000.1"];
                 tr [td "2"; td "a plain name"; td "4,000.2"];
                 tr [td "3"; linked "Bank Z"; td "3,000.3"]] in
  ∃ df, extract (Tag "[document]" [Tag "table" [body]]) = Ok df ∧
    first_ten_qualifying (Tag "[document]" [Tag "table" [body]]) df ∧
    length df = 2%nat.
Proof.
  intros body.
  destruct (C3_first_ten_qualifying_rows
              (Tag "[document]" [Tag "table" [body]]) body)
    as (df & H1 & H2 & H3); [reflexivity..|].
  exists df. split; [exact H1|]. split; [exact H2|]. exact H3.
Defined.

(** C5 (counterexample): a row with a single data cell makes the Extractor
    raise IndexError at [cell_data[1]]. *)
Lemma C5_single_cell_row_counterexample :
  let row := tr [td "1"] in
  find_all "td" row ≠ [] ∧
  extract_row row = Raise IndexError ∧
  extract (page [row]) = Raise IndexError.
Proof. by vm_compute. Qed.

(** C5 (amended): processing a row faults exactly when the row has one or
    two data cells: IndexError at [cell_data[1]] or [cell_data[2]].  A row
    with at least three data cells is kept or skipped without fault, a row
    with none is skipped. *)
Theorem C5_row_faults_iff_one_or_two_cells row :
  (is_ok (extract_row row) = false ↔
     (1 ≤ length (find_all "td" row) < 3)%nat) ∧
  (is_ok (extract_row row) = false → extract_row row = Raise IndexError).
Proof.
  pose proof (extract_row_cases row) as H.
  destruct (find_all "td" row) as [|c0 [|c1 [|c2 cs]]]; rewrite H;
    cbn [length is_ok]; try (split; [split|]; (done || lia)).
  cbn zeta. destruct (String.prefix _ _); cbn [is_ok]; (split; [split|]; (done || lia)).
Qed.




End Extractor.

(** ** float64: the sign of products, quotients and roundings *)

Section F64Facts.
Import F64.

Lemma iter_pos_preserves {A} (P : A → Prop) (f : A → A) n x :
  (∀ y, P y → P (f y)) → P x → P (SpecFloat.iter_pos f n x).
Proof.
  intros Hf. revert x. induction n as [n IH|n IH|]; intros x Hx; cbn; auto.
Qed.

Lemma shr_1_nonneg mrs : 0 ≤ shr_m mrs → 0 ≤ shr_m (shr_1 mrs).
Proof. destruct mrs as [[|[p|p|]|p] r s]; cbn; lia. Qed.

Lemma shr_nonneg mrs e n : 0 ≤ shr_m mrs → 0 ≤ shr_m (fst (shr mrs e n)).
Proof.
  intros H. destruct n as [|p|p]; cbn; try done.
  apply (iter_pos_preserves (λ y, 0 ≤ shr_m y)); [apply shr_1_nonneg|done].
Qed.

Lemma shr_record_of_loc_m m l : shr_m (shr_record_of_loc m l) = m.
Proof. by destruct l as [|[]]. Qed.

Lemma shr_fexp_nonneg m e l :
  0 ≤ m → 0 ≤ shr_m (fst (shr_fexp prec emax m e l)).
Proof.
  intros H. unfold shr_fexp. apply shr_nonneg. by rewrite shr_record_of_loc_m.
Qed.

Lemma round_nearest_even_nonneg m l : 0 ≤ m → 0 ≤ round_nearest_even m l.
Proof.
  intros H. destruct l as [|[]]; cbn [round_nearest_even]; try lia.
  destruct (Z.even m); lia.
Qed.

(** A rounded value carries the sign it was given. *)
Lemma binary_round_aux_nonneg m e l :
  0 ≤ m → nonneg (binary_round_aux prec emax false m e l) = true.
Proof.
  intros H. unfold binary_round_aux.
  pose proof (shr_fexp_nonneg m e l H) as H1.
  destruct (shr_fexp prec emax m e l) as [mrs' e']. cbn [fst] in H1.
  pose proof (shr_fexp_nonneg _ e' loc_Exact
                (round_nearest_even_nonneg _ (loc_of_shr_record mrs') H1)) as H2.
  destruct (shr_fexp prec emax _ e' loc_Exact) as [mrs'' e'']. cbn [fst] in H2.
  destruct (shr_m mrs'') as [|p|p]; [done| |lia].
  by destruct (e'' <=? emax - prec).
Qed.

Lemma binary_round_nonneg m e :
  nonneg (binary_round prec emax false m e) = true.
Proof.
  unfold binary_round. destruct (shl_align _ _ _) as [mz ez].
  by apply binary_round_aux_nonneg.
Qed.

Lemma binary_normalize_nonneg n e :
  0 ≤ n → nonneg (binary_normalize prec emax n e false) = true.
Proof.
  intros H. destruct n as [|p|p]; cbn [binary_normalize]; [done| |lia].
  apply binary_round_nonneg.
Qed.

Lemma nonneg_cases x :
  nonneg x = true →
  (∃ s, x = S754_zero s) ∨ x = S754_infinity false ∨
  (∃ m e, x = S754_finite false m e).
Proof. destruct x as [s|[]| |[] m e]; cbn; try done; eauto. Qed.

(** The product of two finite non-negative numbers is non-negative. *)
Lemma mul_nonneg_finite x y :
  nonneg x = true → is_finite x = true →
  nonneg y = true → is_finite y = true →
  nonneg (mul x y) = true.
Proof.
  intros Hx Fx Hy Fy.
  destruct x as [sx|sx| |[] mx ex], y as [sy|sy| |[] my ey]; try done.
  apply binary_round_aux_nonneg. lia.
Qed.

(** A non-negative number times a positive finite one is non-negative. *)
Lemma mul_nonneg_pos x m e :
  nonneg x = true → nonneg (mul x (S754_finite false m e)) = true.
Proof.
  intros Hx. destruct x as [sx|[]| |[] mx ex]; try done.
  apply binary_round_aux_nonneg. lia.
Qed.

Lemma div_core_nonneg m1 e1 m2 e2 :
  0 ≤ (SFdiv_core_binary prec emax (Z.pos m1) e1 (Z.pos m2) e2).1.1.
Proof.
  unfold SFdiv_core_binary.
  set (s := _ - _ - _ : Z).
  set (m' := match s with Z.pos _ => _ | 0 => _ | _ => _ end).
  assert (0 ≤ m') as Hm.
  { subst m'. destruct s; try lia. apply Z.shiftl_nonneg. lia. }
  pose proof (Z_div_mod m' (Z.pos m2) eq_refl) as H.
  destruct (Z.div_eucl m' (Z.pos m2)) as [q r]. cbn [fst]. nia.
Qed.

Lemma div_nonneg_pos x m e :
  nonneg x = true → nonneg (div x (S754_finite false m e)) = true.
Proof.
  intros Hx. destruct x as [sx|[]| |[] mx ex]; try done.
  unfold div, SFdiv. pose proof (div_core_nonneg mx ex m e) as H.
  destruct (SFdiv_core_binary _ _ _ _ _ _) as [[mz ez] lz]. cbn [fst] in H.
  by apply binary_round_aux_nonneg.
Qed.

Lemma rint_nonneg x : nonneg x = true → nonneg (rint x) = true.
Proof.
  intros Hx. destruct x as [sx|[]| |[] m e]; try done.
  unfold rint. destruct (0 <=? e); [done|].
  pose proof (shr_nonneg (shr_record_of_loc (Z.pos m) loc_Exact) e (- e)) as H.
  destruct (shr _ e (- e)) as [mrs e']. cbn [fst] in H.
  apply binary_normalize_nonneg. cbn [cond_Zopp].
  apply round_nearest_even_nonneg, H. done.
Qed.

(** [np.round] keeps a non-negative number non-negative. *)
Lemma round2_nonneg x : nonneg x = true → nonneg (round x 2) = true.
Proof.
  intros Hx. unfold round.
  change (of_Z (10 ^ Z.of_nat 2)) with (S754_finite false 7036874417766400 (-46)).
  by apply div_nonneg_pos, rint_nonneg, mul_nonneg_pos.
Qed.

End F64Facts.

(** ** The Transformer *)

Section Transformer.
Import F64.

(** [transform], statement by statement. *)
Lemma transform_unfold rates df :
  transform rates df =
    match rate_at rates 0, rate_at rates 1, rate_at rates 2 with
    | Ok reur, Ok rgbp, Ok rinr =>
        match astype_float (df_replace "," "" df) with
        | Ok typed =>
            (df_replace "," "" df, Ok (List.map (with_currencies reur rgbp rinr) typed))
        | Raise e => (df_replace "," "" df, Raise e)
        end
    | Raise e, _, _ | Ok _, Raise e, _ | Ok _, Ok _, Raise e => (df, Raise e)
    end.
Proof.
  unfold transform, mbind, stmt_bind, lift, modify, get, mret, stmt_ret.
  destruct (rate_at rates 0); [|done].
  destruct (rate_at rates 1); [|done].
  destruct (rate_at rates 2); [|done].
  by destruct (astype_float _).
Qed.

Lemma astype_float_ok df typed :
  astype_float df = Ok typed ↔
  Forall2 (λ r p, p.1 = Raw.Name r ∧
                  PyFloat.of_str (Raw.TA_USD_Billion r) = Some p.2) df typed.
Proof.
  revert typed. induction df as [|r df IH]; intros typed; cbn [astype_float].
  - split; [intros [= <-]; constructor|by inversion 1].
  - destruct (PyFloat.of_str (Raw.TA_USD_Billion r)) as [x|] eqn:E.
    + destruct (astype_float df) as [rest|e] eqn:A; cbn [mbind result_bind].
      * split.
        -- intros [= <-]. constructor; [done|]. by apply IH.
        -- inversion 1 as [|? [n y] ? ? [Hn Hy] Hrest]; subst.
           apply IH in Hrest. cbn in *. congruence.
      * split; [done|]. inversion 1 as [|? [n y] ? ? _ Hrest]; subst.
        by apply IH in Hrest.
    + split; [done|]. inversion 1 as [|? [n y] ? ? [_ Hy] _]; subst.
      cbn in *. congruence.
Qed.



(** What a returning [transform] did. *)
Lemma transform_returns rates df df' out :
  transform rates df = (df', Ok out) →
  ∃ reur rgbp rinr typed,
    rate_at rates 0 = Ok reur ∧ rate_at rates 1 = Ok rgbp ∧
    rate_at rates 2 = Ok rinr ∧
    df' = df_replace "," "" df ∧
    astype_float df' = Ok typed ∧
    out = List.map (with_currencies reur rgbp rinr) typed.
Proof.
  rewrite transform_unfold.
  destruct (rate_at rates 0) as [reur|]; [|done].
  destruct (rate_at rates 1) as [rgbp|]; [|done].
  destruct (rate_at rates 2) as [rinr|]; [|done].
  destruct (astype_float _) as [typed|] eqn:A; [|done].
  intros [= <- <-]. by exists reur, rgbp, rinr, typed.
Qed.

End Transformer.

Section TransformerClaims.
Import F64.



(** C10: a returning [transform] has replaced the contents of the frame it
    was given: every text field of it, the bank name as well as the asset
    text, has lost its commas, so the frame differs from what the Extractor
    produced as soon as one field held a comma. *)
Theorem C10_input_frame_mutated rates df df' out :
  transform rates df = (df', Ok out) →
  Forall2 (λ r r',
      Raw.Name r' = Str.replace "," "" (Raw.Name r) ∧
      Raw.TA_USD_Billion r' = Str.replace "," "" (Raw.TA_USD_Billion r))
    df df' ∧
  Forall (λ r', Str.contains "," (Raw.Name r') = false ∧
                Str.contains "," (Raw.TA_USD_Billion r') = false) df' ∧
  (Exists (λ r, Str.contains "," (Raw.Name r) = true ∨
                Str.contains "," (Raw.TA_USD_Billion r) = true) df →
   df' ≠ df).
Proof.
  intros (_ & _ & _ & _ & _ & _ & _ & -> & _)%transform_returns.
  unfold df_replace. split; [|split].
  - apply Forall2_fmap_r, Forall_Forall2_diag, Forall_true. done.
  - apply Forall_fmap, Forall_true. intros r. cbn.
    by rewrite !replace_removes.
  - induction 1 as [r df [H|H]|r df _ IH]; cbn [List.map]; intros [= E1 E2].
    + destruct r as [n t]. cbn in *. injection E1 as En Et.
      by apply replace_present in En.
    + destruct r as [n t]. cbn in *. injection E1 as En Et.
      by apply replace_present in Et.
    + by apply IH.
Qed.

Lemma C10_input_frame_mutated_witness :
  let df := [{| Raw.Name := "Bank, A"; Raw.TA_USD_Billion := "1,000.00" |}] in
  let df' := [{| Raw.Name := "Bank A"; Raw.TA_USD_Billion := "1000.00" |}] in
  (transform Scenario.rates df).1 = df' ∧ df' ≠ df.
Proof.
  intros df df'. split; [reflexivity|].
  refine (proj2 (proj2 (C10_input_frame_mutated Scenario.rates df df'
    (List.map (with_currencies (of_decimal false 93 (-2))
       (of_decimal false 8 (-1)) (of_decimal false 821 (-1)))
       [("Bank A"%string, of_Z 1000)]) _)) _).
  - reflexivity.
  - left. left. reflexivity.
Defined.

End TransformerClaims.

Section TransformerFaults.
Import F64.




(** C7 (counterexample): the asset text [-1,000.00] gives a record whose
    USD field is [-1000.0]. *)
Lemma C7_negative_asset_counterexample :
  let df := [{| Raw.Name := "Bank A"; Raw.TA_USD_Billion := "-1,000.00" |}] in
  ∃ o, (transform Scenario.rates df).2 = Ok [o] ∧
    Final.TA_USD_Billion o = of_Z (-1000) ∧
    nonneg (Final.TA_USD_Billion o) = false ∧
    nonneg (Final.TA_GBP_Billion o) = false.
Proof. eexists. by vm_compute. Qed.

(** C7 (amended): when the three rates are finite and non-negative, every
    returned record whose USD value is finite and non-negative has all four
    asset fields non-negative. *)
Theorem C7_asset_fields_nonneg rates df df' out :
  transform rates df = (df', Ok out) →
  (∀ i x, (i < 3)%nat → rate_at rates i = Ok x →
     nonneg x = true ∧ is_finite x = true) →
  Forall (λ o,
      nonneg (Final.TA_USD_Billion o) = true →
      is_finite (Final.TA_USD_Billion o) = true →
      nonneg (Final.TA_USD_Billion o) = true ∧
      nonneg (Final.TA_GBP_Billion o) = true ∧
      nonneg (Final.TA_EUR_Billion o) = true ∧
      nonneg (Final.TA_INR_Billion o) = true) out.
Proof.
  intros (reur & rgbp & rinr & typed & H0 & H1 & H2 & _ & _ & ->)
    %transform_returns Hrates.
  destruct (Hrates 0%nat reur) as [? ?]; [lia|done|].
  destruct (Hrates 1%nat rgbp) as [? ?]; [lia|done|].
  destruct (Hrates 2%nat rinr) as [? ?]; [lia|done|].
  apply Forall_fmap, Forall_true. intros [name usd]. cbn. intros Hn Hf.
  split; [done|]. by rewrite !round2_nonneg by by apply mul_nonneg_finite.
Qed.

Lemma C7_asset_fields_nonneg_witness :
  Forall (λ o,
      nonneg (Final.TA_USD_Billion o) = true →
      is_finite (Final.TA_USD_Billion o) = true →
      nonneg (Final.TA_USD_Billion o) = true ∧
      nonneg (Final.TA_GBP_Billion o) = true ∧
      nonneg (Final.TA_EUR_Billion o) = true ∧
      nonneg (Final.TA_INR_Billion o) = true) Scenario.expected.
Proof.
  apply (C7_asset_fields_nonneg Scenario.rates Scenario.input
           [{| Raw.Name := "Bank A"; Raw.TA_USD_Billion := "1000.00" |}]).
  - reflexivity.
  - intros [|[|[|i]]] x Hi; [| | |lia]; intros [= <-]; split; reflexivity.
Defined.

End TransformerFaults.

(** ** The Relational Loader *)

Section RelationalLoader.

Lemma load_to_db_replaces df table con :
  load_to_db df table con =
    (<[table := {| Sql.columns := FINAL_ATTRIBUTES;
                   Sql.rows := List.map sql_row df |}]> con, Ok ()).
Proof. unfold load_to_db, to_sql. by destruct (con !! table). Qed.

(** C8: loading the same records twice leaves the database as loading them
    once does: both calls return, the table holds exactly one stored row per
    record, in order, under the five column names, whatever the table held
    before. *)
Theorem C8_load_to_db_idempotent df table con :
  let once := (load_to_db df table con).1 in
  let twice := (load_to_db df table once).1 in
  (load_to_db df table con).2 = Ok () ∧
  (load_to_db df table once).2 = Ok () ∧
  twice = once ∧
  twice !! table = Some {| Sql.columns := FINAL_ATTRIBUTES;
                           Sql.rows := List.map sql_row df |} ∧
  (∀ t, twice !! table = Some t → length (Sql.rows t) = length df) ∧
  (∀ other, other ≠ table → twice !! other = con !! other).
Proof.
  cbn zeta. rewrite !load_to_db_replaces. cbn [fst snd].
  rewrite insert_insert_eq, lookup_insert_eq.
  repeat split.
  - intros t [= <-]. cbn. by rewrite length_map.
  - intros other H. by rewrite lookup_insert_ne.
Qed.

(** Appending instead would double the rows on the second run. *)
Example append_is_not_idempotent :
  let once := (to_sql Scenario.expected "Largest_banks" IfExistsAppend ∅).1 in
  let twice := (to_sql Scenario.expected "Largest_banks" IfExistsAppend once).1 in
  (length ∘ Sql.rows <$> once !! "Largest_banks") = Some 1%nat ∧
  (length ∘ Sql.rows <$> twice !! "Largest_banks") = Some 2%nat.
Proof. by vm_compute. Qed.

End RelationalLoader.

(** ** The Flat-file Loader *)

Section FlatFile.
Import Csv.

Lemma append_nil_l s : EmptyString +:+ s = s.
Proof. reflexivity. Qed.

Lemma append_cons c s t : String c s +:+ t = String c (s +:+ t).
Proof. reflexivity. Qed.

Lemma append_nil_r s : s +:+ EmptyString = s.
Proof.
  induction s as [|c s IH]; [done|]. by rewrite append_cons, IH.
Qed.

Lemma append_assoc s t u : (s +:+ t) +:+ u = s +:+ (t +:+ u).
Proof.
  induction s as [|c s IH]; [done|]. by rewrite !append_cons, IH.
Qed.

Ltac norm_append :=
  repeat (rewrite append_assoc || rewrite append_cons || rewrite append_nil_l).

Lemma special_false c :
  special c = false →
  Ascii.eqb c Str.LF = false ∧ Ascii.eqb c "," = false ∧
  Ascii.eqb c QUOTE = false.
Proof.
  unfold special. intros [[H1 H2]%orb_false_elim H3]%orb_false_elim. done.
Qed.

(** An unquoted field is read character by character. *)
Lemma reader_plain f fld row rest :
  any special f = false →
  reader InField fld row (f +:+ rest) = reader InField (fld +:+ f) row rest.
Proof.
  revert fld. induction f as [|c f IH]; intros fld; cbn [any].
  - by rewrite append_nil_r.
  - intros [Hc Hf]%orb_false_elim.
    destruct (special_false c Hc) as (H1 & H2 & _).
    rewrite append_cons. cbn [reader].
    rewrite H1, H2, (IH _ Hf). by norm_append.
Qed.

(** A quoted field is read up to its closing quote. *)
Lemma reader_quoted f fld row rest :
  reader InQuotedField fld row (escape f +:+ String QUOTE rest) =
  reader QuoteInQuotedField (fld +:+ f) row rest.
Proof.
  revert fld. induction f as [|c f IH]; intros fld; cbn [escape].
  - by rewrite append_nil_r.
  - destruct (Ascii.eqb c QUOTE) eqn:E; norm_append; cbn [reader].
    + apply Ascii.eqb_eq in E as ->.
      rewrite Ascii.eqb_refl, IH. by norm_append.
    + rewrite E, IH. by norm_append.
Qed.

(** What stands after a field: the state the reader is in, and the field it
    holds. *)
Lemma reader_field st row f rest :
  st = StartRecord ∨ st = StartField →
  reader st EmptyString row (field f +:+ rest) =
    match f with
    | EmptyString => reader st EmptyString row rest
    | String _ _ =>
        if any special f then reader QuoteInQuotedField f row rest
        else reader InField f row rest
    end.
Proof.
  intros Hst. unfold field. destruct f as [|c f]; [done|].
  destruct (any special (String c f)) eqn:E.
  - norm_append.
    transitivity (reader InQuotedField EmptyString row
                    (escape (String c f) +:+ String QUOTE rest)).
    + by destruct Hst as [-> | ->].
    + by rewrite reader_quoted.
  - cbn [any] in E. apply orb_false_elim in E as [Hc Hf].
    destruct (special_false c Hc) as (H1 & H2 & H3).
    transitivity (reader InField (String c EmptyString) row (f +:+ rest)).
    + rewrite append_cons.
      destruct Hst as [-> | ->]; cbn [reader]; by rewrite H1, H2, H3.
    + by rewrite reader_plain.
Qed.

Lemma reader_field_comma st row f rest :
  st = StartRecord ∨ st = StartField →
  reader st EmptyString row (field f +:+ String "," rest) =
  reader StartField EmptyString (row ++ [f]) rest.
Proof.
  intros Hst. rewrite (reader_field st) by done.
  destruct f as [|c f]; [by destruct Hst as [-> | ->]|].
  by destruct (any special (String c f)).
Qed.

Lemma reader_field_newline st row f rest :
  st = StartField ∨ (st = StartRecord ∧ f ≠ EmptyString) →
  reader st EmptyString row (field f +:+ String Str.LF rest) =
  cons (row ++ [f]) <$> reader StartRecord EmptyString [] rest.
Proof.
  intros Hst. rewrite (reader_field st) by (destruct Hst as [|[]]; auto).
  destruct f as [|c f]; [by destruct Hst as [-> | [_ ?]]|].
  by destruct (any special (String c f)).
Qed.

(** The fields of a line come back in order. *)
Lemma reader_join st row fields rest :
  st = StartField ∧ fields ≠ [] ∨
    st = StartRecord ∧ fields ≠ [] ∧ fields ≠ [EmptyString] →
  reader st EmptyString row (join fields +:+ String Str.LF rest) =
  cons (row ++ fields) <$> reader StartRecord EmptyString [] rest.
Proof.
  revert st row. induction fields as [|f fields IH]; intros st row Hst.
  { destruct Hst as [[_ ?]|(_ & ? & _)]; done. }
  destruct fields as [|g fields].
  - cbn [join]. apply reader_field_newline.
    destruct Hst as [[-> _]|(-> & _ & H)]; [by left|right].
    split; [done|]. by intros ->.
  - change (join (f :: g :: fields))
      with (field f +:+ String "," (join (g :: fields))).
    rewrite append_assoc, append_cons.
    rewrite reader_field_comma by (destruct Hst as [[-> _]|(-> & _)]; auto).
    rewrite IH by (by left). by rewrite <- app_assoc.
Qed.

Lemma reader_writerow row rest :
  reader StartRecord EmptyString [] (writerow row +:+ rest) =
  cons row <$> reader StartRecord EmptyString [] rest.
Proof.
  unfold writerow. rewrite append_assoc, append_cons, append_nil_l.
  destruct row as [|f row]; [done|].
  destruct (decide (f :: row = [EmptyString])) as [[= -> ->]|Hne]; [done|].
  transitivity (reader StartRecord EmptyString []
                  (join (f :: row) +:+ String Str.LF rest)).
  - by destruct f, row.
  - rewrite reader_join; [done|]. right. done.
Qed.

(** Reading what the writer wrote gives the rows back. *)
Lemma read_writerows rows : read (writerows rows) = Some rows.
Proof.
  unfold read. induction rows as [|row rows IH]; [done|].
  cbn [writerows]. by rewrite reader_writerow, IH.
Qed.


(** The file of the scenario, and the numbers in it read by [float]. *)
Example scenario_file :
  to_csv Scenario.expected =
    ("Name,TA_USD_Billion,TA_GBP_Billion,TA_EUR_Billion,TA_INR_Billion"
       +:+ String Str.LF
     ("Bank A,1000.0,800.0,930.0,82100.0" +:+ String Str.LF EmptyString)) ∧
  List.map PyFloat.of_str ["1000.0"; "800.0"; "930.0"; "82100.0"]%string =
    [Some (F64.of_Z 1000); Some (F64.of_Z 800); Some (F64.of_Z 930);
     Some (F64.of_Z 82100)].
Proof. by vm_compute. Qed.

End FlatFile.

(** ** The Extractor: the loop and its faults *)

Section ExtractorLoop.

Lemma extract_loop_length rows count df out :
  extract_loop rows count df = Ok out →
  (length out ≤ length df + (10 - count))%nat.
Proof.
  revert count df. induction rows as [|row rows IH]; intros count df.
  - intros [= <-]. lia.
  - rewrite extract_loop_cons. destruct (Nat.leb_spec 10 count) as [E|E].
    + intros [= <-]. lia.
    + destruct (extract_row row) as [[r|]|e]; cbn [mbind result_bind];
        [|apply IH|done].
      intros H%IH. rewrite length_app in H. cbn in H. lia.
Qed.

(** X1: whatever the page, a sequence [extract] returns has at most ten
    records. *)
Theorem X1_extract_at_most_ten soup df :
  extract soup = Ok df → (length df ≤ 10)%nat.
Proof.
  unfold extract. destruct (getitem _ 0) as [body|e]; [|done].
  cbn [mbind result_bind]. intros H%extract_loop_length. cbn in H. lia.
Qed.

Lemma X1_extract_at_most_ten_witness :
  (length [{| Raw.Name := "Bank X"; Raw.TA_USD_Billion := "5,000.1" |}]
     ≤ 10)%nat.
Proof.
  apply (X1_extract_at_most_ten
           (Page.page [Page.tr [Page.td "1"; Page.td "Bank X";
                                Page.td "5,000.1"]])).
  reflexivity.
Defined.

Lemma extract_loop_full rows more count df out :
  extract_loop rows count df = Ok out →
  length out = (length df + (10 - count))%nat →
  extract_loop (rows ++ more) count df = Ok out.
Proof.
  revert count df. induction rows as [|row rows IH]; intros count df.
  - intros [= <-] E. cbn [app]. destruct more as [|m more]; [done|].
    rewrite extract_loop_cons. destruct (Nat.leb_spec 10 count); [done|lia].
  - cbn [app]. rewrite !extract_loop_cons.
    destruct (Nat.leb_spec 10 count) as [E|E]; [done|].
    destruct (extract_row row) as [[r|]|e]; cbn [mbind result_bind];
      [|apply IH|done].
    intros H E'. apply IH; [done|]. rewrite length_app. cbn. lia.
Qed.

(** X2: once ten rows are kept the loop stops: rows that follow in the
    table are never looked at, so they change nothing, not even when they
    would fault. *)
Theorem X2_rows_after_the_tenth_are_ignored rows more out :
  extract_loop rows 0 [] = Ok out →
  length out = 10%nat →
  extract_loop (rows ++ more) 0 [] = Ok out.
Proof. intros H E. apply extract_loop_full; [done|]. by rewrite E. Qed.

Lemma X2_rows_after_the_tenth_are_ignored_witness :
  let row := Page.tr [Page.td "1"; Page.td "Bank X"; Page.td "5,000.1"] in
  extract_loop (replicate 10 row ++ [Page.tr [Page.td "11"]]) 0 [] =
    Ok (replicate 10 {| Raw.Name := "Bank X";
                        Raw.TA_USD_Billion := "5,000.1" |}).
Proof.
  intros row.
  apply (X2_rows_after_the_tenth_are_ignored (replicate 10 row)
           [Page.tr [Page.td "11"]]); reflexivity.
Defined.

(** X3: rows without a data cell, such as header rows, never matter:
    leaving them out of the table gives the same result. *)
Theorem X3_rows_without_data_cells_are_skipped rows count df :
  extract_loop (List.filter has_data_cell rows) count df =
  extract_loop rows count df.
Proof.
  revert count df. induction rows as [|row rows IH]; intros count df; [done|].
  cbn [List.filter]. unfold has_data_cell at 1.
  pose proof (extract_row_cases row) as H.
  destruct (find_all "td" row) as [|c cs] eqn:E.
  - rewrite IH, (extract_loop_cons row), H. cbn [mbind result_bind].
    destruct (Nat.leb_spec 10 count); [|done].
    destruct rows as [|r' rows']; [done|].
    rewrite extract_loop_cons. by destruct (Nat.leb_spec 10 count); [|lia].
  - rewrite !extract_loop_cons. destruct (10 <=? count)%nat; [done|].
    destruct (extract_row row) as [[r|]|e]; cbn [mbind result_bind]; auto.
Qed.

Lemma extract_row_raises row e :
  extract_row row = Raise e → e = IndexError.
Proof.
  pose proof (extract_row_cases row) as H.
  destruct (find_all "td" row) as [|c0 [|c1 [|c2 cs]]]; rewrite H;
    try congruence.
  cbn zeta. destruct (String.prefix _ _); congruence.
Qed.

(** The loop faults exactly at a row with one or two data cells met before
    ten rows are kept. *)
Lemma extract_loop_raises rows count df e :
  extract_loop rows count df = Raise e ↔
  e = IndexError ∧
  ∃ pre row post,
    rows = pre ++ row :: post ∧
    Forall (λ r, zero_or_three_cells r = true) pre ∧
    (count + length (omap kept pre) < 10)%nat ∧
    zero_or_three_cells row = false.
Proof.
  revert count df. induction rows as [|row rows IH]; intros count df.
  - split; [done|]. intros (_ & [|??] & ? & ? & ? & _); done.
  - rewrite extract_loop_cons. destruct (Nat.leb_spec 10 count) as [E|E].
    + split; [done|]. intros (_ & pre & r & post & _ & _ & ? & _). lia.
    + pose proof (extract_row_ok_iff row) as Hok.
      pose proof (extract_row_raises row) as Hidx.
      unfold kept in IH |- *.
      destruct (extract_row row) as [[r|]|e'] eqn:R; cbn [mbind result_bind].
      * rewrite IH. split.
        -- intros (-> & pre & r' & post & -> & Hpre & Hlen & Hbad).
           split; [done|]. exists (row :: pre), r', post.
           split; [done|]. split; [by constructor|].
           split; [|done]. cbn [omap list_omap]. rewrite R. cbn. lia.
        -- intros (-> & [|p pre] & r' & post & Heq & Hpre & Hlen & Hbad);
             injection Heq as <- ->.
           { cbn in Hok. congruence. }
           split; [done|]. exists pre, r', post. split; [done|].
           inversion_clear Hpre. split; [done|]. split; [|done].
           cbn [omap list_omap] in Hlen. rewrite R in Hlen. cbn in Hlen. lia.
      * rewrite IH. split.
        -- intros (-> & pre & r' & post & -> & Hpre & Hlen & Hbad).
           split; [done|]. exists (row :: pre), r', post.
           split; [done|]. split; [by constructor|].
           split; [|done]. cbn [omap list_omap]. rewrite R. done.
        -- intros (-> & [|p pre] & r' & post & Heq & Hpre & Hlen & Hbad);
             injection Heq as <- ->.
           { cbn in Hok. congruence. }
           split; [done|]. exists pre, r', post. split; [done|].
           inversion_clear Hpre. split; [done|]. split; [|done].
           cbn [omap list_omap] in Hlen. by rewrite R in Hlen.
      * rewrite (Hidx e' eq_refl). split.
        -- intros [= <-]. split; [done|]. exists [], row, rows.
           split; [done|]. split; [constructor|]. split; [cbn; lia|].
           by rewrite <- Hok.
        -- intros (-> & _). done.
Qed.

(** X4: [extract] raises nothing but IndexError, and exactly when the page
    has no table body, or when a row with one or two data cells stands in
    the first table body before ten rows are kept. *)
Theorem X4_extract_raises_iff soup e :
  extract soup = Raise e ↔
  e = IndexError ∧
  (find_all "tbody" soup = [] ∨
   ∃ body pre row post,
     find_all "tbody" soup !! 0%nat = Some body ∧
     find_all "tr" body = pre ++ row :: post ∧
     Forall (λ r, zero_or_three_cells r = true) pre ∧
     (length (omap kept pre) < 10)%nat ∧
     (1 ≤ length (find_all "td" row) < 3)%nat).
Proof.
  assert (∀ row, zero_or_three_cells row = false ↔
                 (1 ≤ length (find_all "td" row) < 3)%nat) as Hcells.
  { intros row. unfold zero_or_three_cells.
    destruct (find_all "td" row) as [|c0 [|c1 [|c2 cs]]]; cbn; split;
      (done || lia). }
  unfold extract, getitem.
  destruct (find_all "tbody" soup) as [|body bodies] eqn:B;
    cbn [lookup list_lookup mbind result_bind].
  - split; [intros [= <-]; auto|by intros [-> _]].
  - rewrite extract_loop_raises. split.
    + intros (-> & pre & row & post & ? & ? & ? & ?%Hcells).
      split; [done|]. right. by exists body, pre, row, post.
    + intros (-> & [?|(b & pre & row & post & [= <-] & ? & ? & ? & ?%Hcells)]);
        [done|].
      split; [done|]. by exists pre, row, post.
Qed.

Lemma extract_loop_names rows count df out :
  extract_loop rows count df = Ok out →
  Forall (λ r, String.prefix "a" (Raw.Name r) = false) df →
  Forall (λ r, String.prefix "a" (Raw.Name r) = false) out.
Proof.
  revert count df. induction rows as [|row rows IH]; intros count df.
  - by intros [= <-].
  - rewrite extract_loop_cons. destruct (10 <=? count)%nat; [by intros [= <-]|].
    pose proof (extract_row_cases row) as H.
    destruct (extract_row row) as [[r|]|e] eqn:R; cbn [mbind result_bind];
      [|apply IH|done].
    intros Hout Hdf. apply (IH _ _ Hout), Forall_app. split; [done|].
    constructor; [|constructor].
    destruct (find_all "td" row) as [|c0 [|c1 [|c2 cs]]]; try done.
    cbn zeta in H. destruct (String.prefix _ _) eqn:P; [done|].
    injection H as ->. exact P.
Qed.

(** X5: no record [extract] returns has a name that starts with the
    lower-case letter a: line 56 drops every such row, linked or not. *)
Theorem X5_no_name_starts_with_a soup df :
  extract soup = Ok df →
  Forall (λ r, String.prefix "a" (Raw.Name r) = false) df.
Proof.
  unfold extract. destruct (getitem _ 0) as [body|e]; [|done].
  cbn [mbind result_bind]. intros H.
  by apply (extract_loop_names _ _ _ _ H).
Qed.

Lemma X5_no_name_starts_with_a_witness :
  Forall (λ r, String.prefix "a" (Raw.Name r) = false)
    [{| Raw.Name := "Bank X"; Raw.TA_USD_Billion := "5,000.1" |}].
Proof.
  apply (X5_no_name_starts_with_a
           (Page.page [Page.tr [Page.td "1"; Page.linked "abc Bank"; Page.td "9"];
                       Page.tr [Page.td "2"; Page.td "Bank X";
                                Page.td "5,000.1"]])).
  reflexivity.
Defined.

End ExtractorLoop.

(** ** The Transformer: the frame it was given, and the rate table *)

Section TransformerFrame.

Lemma contains_replace c old new s :
  Str.contains c s = false → Str.contains c new = false →
  Str.contains c (Str.replace old new s) = false.
Proof.
  intros Hs Hnew. induction s as [|d s IH]; cbn [Str.replace]; [done|].
  cbn [Str.contains] in Hs. apply orb_false_elim in Hs as [Hd Hs].
  destruct (Ascii.eqb d old).
  - by rewrite contains_app, Hnew, IH.
  - cbn [Str.contains]. by rewrite Hd, IH.
Qed.

Lemma df_replace_idemp df :
  df_replace "," "" (df_replace "," "" df) = df_replace "," "" df.
Proof.
  unfold df_replace. rewrite List.map_map. apply List.map_ext. intros r.
  cbn [Raw.Name Raw.TA_USD_Billion].
  by rewrite !(replace_absent "," "" (Str.replace "," "" _))
    by by apply replace_removes.
Qed.

(** X6: the frame passed to [transform] is rewritten, commas removed,
    exactly when the three rates could be read: also when the call then
    raises on an asset text.  When a rate cannot be read the frame is left
    as it was. *)
Theorem X6_frame_after_transform rates df :
  (transform rates df).1 =
    if is_ok (rate_at rates 0) && is_ok (rate_at rates 1)
       && is_ok (rate_at rates 2)
    then df_replace "," "" df else df.
Proof.
  rewrite transform_unfold.
  destruct (rate_at rates 0), (rate_at rates 1), (rate_at rates 2);
    cbn [is_ok andb]; try done.
  by destruct (astype_float _).
Qed.

(** X7: calling [transform] again on the frame a first call has rewritten
    returns the same records and leaves the frame as it is. *)
Theorem X7_transform_again rates df df' out :
  transform rates df = (df', Ok out) →
  transform rates df' = (df', Ok out).
Proof.
  intros (reur & rgbp & rinr & typed & H0 & H1 & H2 & -> & A & ->)
    %transform_returns.
  rewrite transform_unfold, H0, H1, H2, df_replace_idemp, A. done.
Qed.

Lemma X7_transform_again_witness :
  transform Scenario.rates
    [{| Raw.Name := "Bank A"; Raw.TA_USD_Billion := "1000.00" |}] =
  ([{| Raw.Name := "Bank A"; Raw.TA_USD_Billion := "1000.00" |}],
   Ok Scenario.expected).
Proof.
  apply (X7_transform_again Scenario.rates Scenario.input). reflexivity.
Defined.

(** X8: the rates are taken by row position and the currency labels are
    never read: with the first two rows of the rate table exchanged, the
    same input gives the same records with the EUR and GBP values
    exchanged. *)
Theorem X8_rate_rows_are_positional r0 r1 rest df df' out :
  transform (r0 :: r1 :: rest) df = (df', Ok out) →
  transform (r1 :: r0 :: rest) df = (df', Ok (List.map swap_eur_gbp out)).
Proof.
  intros (reur & rgbp & rinr & typed & H0 & H1 & H2 & -> & A & ->)
    %transform_returns.
  rewrite transform_unfold.
  change (rate_at (r1 :: r0 :: rest) 0) with (rate_at (r0 :: r1 :: rest) 1).
  change (rate_at (r1 :: r0 :: rest) 1) with (rate_at (r0 :: r1 :: rest) 0).
  change (rate_at (r1 :: r0 :: rest) 2) with (rate_at (r0 :: r1 :: rest) 2).
  rewrite H0, H1, H2, A. f_equal. f_equal.
  rewrite List.map_map. apply List.map_ext. by intros [name usd].
Qed.

Lemma X8_rate_rows_are_positional_witness :
  (transform [[SStr "GBP"; SFloat (F64.of_decimal false 8 (-1))];
              [SStr "EUR"; SFloat (F64.of_decimal false 93 (-2))];
              [SStr "INR"; SFloat (F64.of_decimal false 821 (-1))]]
     Scenario.input).2 =
  Ok [{| Final.Name := "Bank A";
         Final.TA_USD_Billion := F64.of_Z 1000;
         Final.TA_GBP_Billion := F64.of_Z 930;
         Final.TA_EUR_Billion := F64.of_Z 800;
         Final.TA_INR_Billion := F64.of_Z 82100 |}].
Proof.
  rewrite (X8_rate_rows_are_positional
             [SStr "EUR"; SFloat (F64.of_decimal false 93 (-2))]
             [SStr "GBP"; SFloat (F64.of_decimal false 8 (-1))]
             [[SStr "INR"; SFloat (F64.of_decimal false 821 (-1))]]
             Scenario.input
             [{| Raw.Name := "Bank A"; Raw.TA_USD_Billion := "1000.00" |}]
             Scenario.expected eq_refl).
  reflexivity.
Defined.

End TransformerFrame.

(** ** From the page to the files *)

Section Pipeline.

(** What holds of every row the loop keeps holds of all it returns. *)
Lemma extract_loop_Forall (P : Raw.row → Prop) rows count df out :
  (∀ row r, extract_row row = Ok (Some r) → P r) →
  extract_loop rows count df = Ok out →
  Forall P df → Forall P out.
Proof.
  intros HP. revert count df. induction rows as [|row rows IH]; intros count df.
  - by intros [= <-].
  - rewrite extract_loop_cons. destruct (10 <=? count)%nat; [by intros [= <-]|].
    destruct (extract_row row) as [[r|]|e] eqn:R; cbn [mbind result_bind];
      [|apply IH|done].
    intros Hout Hdf. apply (IH _ _ Hout), Forall_app. split; [done|].
    constructor; [by apply (HP row)|constructor].
Qed.

Lemma extract_row_no_newline row r :
  extract_row row = Ok (Some r) → Str.contains Str.LF (Raw.Name r) = false.
Proof.
  intros H%extract_row_some. unfold row_values in H.
  destruct (find_all "td" row !! 1%nat) as [c1|]; [|done].
  destruct (find_all "td" row !! 2%nat) as [c2|]; [|done].
  cbn [mbind option_bind] in H. injection H as <-. cbn [Raw.Name].
  by apply contains_strip, replace_removes.
Qed.

Lemma extract_length soup df : extract soup = Ok df → (length df ≤ 10)%nat.
Proof.
  unfold extract. destruct (getitem _ 0) as [body|e]; [|done].
  cbn [mbind result_bind]. intros H%extract_loop_length. cbn in H. lia.
Qed.

(** X9: what [extract] hands to [transform] comes out as at most ten
    records, as many as were extracted and in the same order, and no bank
    name among them holds a newline or a comma. *)
Theorem X9_extract_then_transform soup rates df df' out :
  extract soup = Ok df →
  transform rates df = (df', Ok out) →
  length out = length df ∧ (length out ≤ 10)%nat ∧
  Forall2 (λ r o, Final.Name o = Str.replace "," "" (Raw.Name r)) df out ∧
  Forall (λ o, Str.contains Str.LF (Final.Name o) = false ∧
               Str.contains "," (Final.Name o) = false) out.
Proof.
  intros Hext (reur & rgbp & rinr & typed & _ & _ & _ & -> & A & ->)
    %transform_returns.
  apply astype_float_ok in A. unfold df_replace in A.
  apply Forall2_fmap_l in A.
  assert (Forall (λ r, Str.contains Str.LF (Raw.Name r) = false) df) as Hlf.
  { unfold extract in Hext. destruct (getitem _ 0) as [body|e]; [|done].
    cbn [mbind result_bind] in Hext.
    eapply (extract_loop_Forall _ _ _ _ _ extract_row_no_newline); [done|].
    constructor. }
  assert (Forall2 (λ r o, Final.Name o = Str.replace "," "" (Raw.Name r)) df
            (List.map (with_currencies reur rgbp rinr) typed)) as Hnames.
  { apply Forall2_fmap_r. eapply Forall2_impl; [exact A|].
    intros r [name usd] [Hn _]. cbn in *. by subst. }
  pose proof (Forall2_length _ _ _ Hnames) as Hlen.
  split; [done|]. split.
  { rewrite <- Hlen. by apply (extract_length soup). }
  split; [done|].
  clear -Hnames Hlf. induction Hnames as [|r o df out Hn _ IH]; [constructor|].
  inversion_clear Hlf. constructor; [|by apply IH].
  rewrite Hn. split; [by apply contains_replace|by apply replace_removes].
Qed.

Lemma X9_extract_then_transform_witness :
  let soup := Page.page [Page.tr [Page.td "1"; Page.td "Bank, A";
                                  Page.td "1,000.00"]] in
  ∃ df out,
    extract soup = Ok df ∧ (transform Scenario.rates df).2 = Ok out ∧
    length out = length df ∧ (length out ≤ 10)%nat ∧
    Forall2 (λ r o, Final.Name o = Str.replace "," "" (Raw.Name r)) df out ∧
    Forall (λ o, Str.contains Str.LF (Final.Name o) = false ∧
                 Str.contains "," (Final.Name o) = false) out.
Proof.
  intros soup.
  exists [{| Raw.Name := "Bank, A"; Raw.TA_USD_Billion := "1,000.00" |}],
         Scenario.expected.
  split; [reflexivity|]. split; [reflexivity|].
  apply (X9_extract_then_transform soup Scenario.rates _
           [{| Raw.Name := "Bank A"; Raw.TA_USD_Billion := "1000.00" |}]);
    reflexivity.
Defined.

End Pipeline.

(** ** The log file *)

Section Logging.

Lemma count_app c s t :
  StrCount.count c (s +:+ t) = (StrCount.count c s + StrCount.count c t)%nat.
Proof.
  induction s as [|d s IH]; [done|].
  rewrite append_cons. cbn [StrCount.count]. rewrite IH. lia.
Qed.

Lemma count_cons_ne c d s :
  Ascii.eqb d c = false → StrCount.count c (String d s) = StrCount.count c s.
Proof. intros H. cbn [StrCount.count]. by rewrite H. Qed.

Lemma prefix_append s t : String.prefix s (s +:+ t) = true.
Proof.
  induction s as [|c s IH]; [by destruct t|].
  rewrite append_cons. cbn [String.prefix].
  destruct (ascii_dec c c); [done|congruence].
Qed.

Lemma eqb_below a c :
  (nat_of_ascii c < 48)%nat → (48 ≤ nat_of_ascii a)%nat →
  Ascii.eqb a c = false.
Proof. intros Hc Ha. apply Ascii.eqb_neq. intros <-. lia. Qed.

Lemma count_uint c d :
  (nat_of_ascii c < 48)%nat →
  StrCount.count c (NilEmpty.string_of_uint d) = 0%nat.
Proof.
  intros Hc.
  assert (∀ a, (48 ≤ nat_of_ascii a)%nat → Ascii.eqb a c = false) as Hne.
  { intros a Ha. apply Ascii.eqb_neq. intros <-. lia. }
  induction d as [|d IH|d IH|d IH|d IH|d IH|d IH|d IH|d IH|d IH|d IH];
    cbn [NilEmpty.string_of_uint StrCount.count]; [done|..];
    rewrite IH, Hne by (vm_compute; lia); done.
Qed.

Lemma count_digits_of c n :
  (nat_of_ascii c < 48)%nat → StrCount.count c (Repr.digits_of n) = 0%nat.
Proof.
  intros Hc. unfold Repr.digits_of.
  destruct (N.to_uint (Z.to_N n)) as [|d|d|d|d|d|d|d|d|d|d];
    try exact (count_uint c _ Hc).
  change (NilZero.string_of_uint Decimal.Nil) with "0"%string.
  cbn [StrCount.count]. by rewrite eqb_below by (done || vm_compute; lia).
Qed.

Lemma count_padded c n :
  (nat_of_ascii c < 48)%nat → StrCount.count c (Time.padded n) = 0%nat.
Proof.
  intros Hc. unfold Time.padded. rewrite count_app, count_digits_of by done.
  destruct (n <? 10)%nat; [|done].
  cbn [StrCount.count]. by rewrite eqb_below by (done || vm_compute; lia).
Qed.

Lemma count_month_abbr m : StrCount.count Str.LF (Time.month_abbr m) = 0%nat.
Proof.
  unfold Time.month_abbr. do 13 (destruct m as [|m]; [done|]).
  cbn. by destruct m.
Qed.

(** The time stamp holds no newline. *)
Lemma count_timestamp now :
  StrCount.count Str.LF (Time.strftime "%Y-%h-%d-%H:%M:%S" now) = 0%nat.
Proof.
  cbn [Time.strftime Time.directive].
  repeat (rewrite count_app || rewrite count_cons_ne by done).
  rewrite !count_padded, count_digits_of, count_month_abbr
    by (vm_compute; lia).
  done.
Qed.

Lemma count_log_line now message :
  StrCount.count Str.LF (log_line now message) =
    S (StrCount.count Str.LF message).
Proof.
  unfold log_line. rewrite !count_app, count_timestamp. cbn. lia.
Qed.

Lemma log_progress_lookup now message files :
  log_progress now message files !! LOG_FILE =
    Some (default EmptyString (files !! LOG_FILE) +:+ log_line now message).
Proof. unfold log_progress. by rewrite lookup_insert_eq. Qed.

Lemma log_progress_other now message files f :
  f ≠ LOG_FILE → log_progress now message files !! f = files !! f.
Proof. intros H. unfold log_progress. by rewrite lookup_insert_ne. Qed.

(** X10: [log_progress] only ever adds to the end of the log file: what
    the file held stays in front, the call adds one line and as many more as
    the message holds newlines, and no other file is touched. *)
Theorem X10_log_progress_appends now message files :
  let old := default EmptyString (files !! LOG_FILE) in
  ∃ new,
    log_progress now message files !! LOG_FILE = Some new ∧
    String.prefix old new = true ∧
    StrCount.count Str.LF new =
      (StrCount.count Str.LF old + 1 + StrCount.count Str.LF message)%nat ∧
    ∀ f, f ≠ LOG_FILE → log_progress now message files !! f = files !! f.
Proof.
  intros old. exists (old +:+ log_line now message).
  split; [apply log_progress_lookup|].
  split; [apply prefix_append|].
  split; [rewrite count_app, count_log_line; lia|].
  intros f. apply log_progress_other.
Qed.

End Logging.

(** ** The script as a whole *)

Section WholeRun.
Context {frame : Type} (read_sql : string → gmap string Sql.table → result frame).

Lemma files_loaded_log clock out fs :
  files_loaded clock out fs !! LOG_FILE =
    Some (default EmptyString (fs !! LOG_FILE) +:+
          log_lines clock 0 (take 6 MILESTONES)).
Proof.
  unfold files_loaded, load_to_csv.
  rewrite !log_progress_lookup, lookup_insert_ne by done.
  rewrite !log_progress_lookup. simpl default.
  cbn [take MILESTONES log_lines].
  by rewrite !append_assoc, append_nil_r.
Qed.

Lemma files_loaded_csv clock out fs :
  files_loaded clock out fs !! OUTPUT_CSV = Some (to_csv out).
Proof.
  unfold files_loaded, load_to_csv.
  rewrite !log_progress_other by done. by rewrite lookup_insert_eq.
Qed.

Lemma files_loaded_other clock out fs f :
  f ≠ LOG_FILE → f ≠ OUTPUT_CSV → files_loaded clock out fs !! f = fs !! f.
Proof.
  intros H1 H2. unfold files_loaded, load_to_csv.
  rewrite !log_progress_other, lookup_insert_ne by done.
  by rewrite !log_progress_other.
Qed.

(** The script up to the queries, when extraction and transformation
    return. *)
Lemma main_loaded soup rates clock w df out :
  extract soup = Ok df → (transform rates df).2 = Ok out →
  main read_sql soup rates clock w =
    prog_bind (run_query read_sql "SELECT * FROM Largest_banks") (λ _,
    prog_bind (run_query read_sql
                 "SELECT AVG(TA_GBP_Billion) FROM Largest_banks") (λ _,
    prog_bind (run_query read_sql
                 "SELECT Name from Largest_banks LIMIT 5") (λ _,
    prog_bind (on_files (log_progress (clock 6%nat) "Process complete")) (λ _,
    on_files (log_progress (clock 7%nat) "Server connection closed")))))
      {| files := files_loaded clock out (files w);
         tables := <[TABLE := {| Sql.columns := FINAL_ATTRIBUTES;
                                 Sql.rows := List.map sql_row out |}]> (tables w);
         stdout := stdout w |}.
Proof.
  intros He Ht. unfold main at 1.
  unfold prog_bind at 1. cbn [on_files].
  unfold prog_bind at 1. rewrite He.
  unfold prog_bind at 1. cbn [on_files files tables stdout].
  unfold prog_bind at 1. rewrite Ht.
  unfold prog_bind at 1. cbn [on_files files tables stdout].
  unfold prog_bind at 1. cbn [on_files files tables stdout].
  unfold prog_bind at 1. cbn [on_files files tables stdout].
  unfold prog_bind at 1. cbn [on_files files tables stdout].
  unfold prog_bind at 1. cbn [files tables stdout].
  rewrite load_to_db_replaces.
  unfold prog_bind at 1. cbn [on_files files tables stdout].
  done.
Qed.

(** X11: when extraction or transformation raises, the script stops
    there with that exception: the flat file is not written, the database
    and the output are untouched, and the log has gained its first line
    only, or its first two when it is the transformation that raised. *)
Theorem X11_fault_before_loading soup rates clock w e :
  (extract soup ≫= λ df, (transform rates df).2) = Raise e →
  let w' := (main read_sql soup rates clock w).1 in
  (main read_sql soup rates clock w).2 = Raise e ∧
  tables w' = tables w ∧ stdout w' = stdout w ∧
  (∀ f, f ≠ LOG_FILE → files w' !! f = files w !! f) ∧
  files w' !! LOG_FILE =
    Some (default EmptyString (files w !! LOG_FILE) +:+
          log_lines clock 0
            (take (if is_ok (extract soup) then 2 else 1) MILESTONES)).
Proof.
  intros H. unfold main, prog_bind. cbn [on_files].
  destruct (extract soup) as [df|e'] eqn:He; cbn [mbind result_bind] in H.
  - cbn [on_files files tables stdout]. rewrite H. cbn [fst snd is_ok].
    do 3 (split; [done|]). split.
    + intros f Hf. cbn [files]. by rewrite !log_progress_other.
    + cbn [files]. rewrite !log_progress_lookup. simpl default.
      cbn [take MILESTONES log_lines]. by rewrite !append_assoc, append_nil_r.
  - injection H as ->. cbn [fst snd is_ok files tables stdout].
    do 3 (split; [done|]). split.
    + intros f Hf. by rewrite log_progress_other.
    + rewrite log_progress_lookup. cbn [take MILESTONES log_lines].
      by rewrite append_nil_r.
Qed.

(** X12: when extraction, transformation and the three queries return,
    the script returns: the flat file holds the text of the transformed
    records, the table holds one stored row for each of them, the three
    queries and their results are printed in turn, the log has gained its
    eight lines in order, and no other file has changed. *)
Theorem X12_complete_run soup rates clock w df out f1 f2 f3 :
  extract soup = Ok df →
  (transform rates df).2 = Ok out →
  let db := <[TABLE := {| Sql.columns := FINAL_ATTRIBUTES;
                          Sql.rows := List.map sql_row out |}]> (tables w) in
  read_sql "SELECT * FROM Largest_banks" db = Ok f1 →
  read_sql "SELECT AVG(TA_GBP_Billion) FROM Largest_banks" db = Ok f2 →
  read_sql "SELECT Name from Largest_banks LIMIT 5" db = Ok f3 →
  let w' := (main read_sql soup rates clock w).1 in
  (main read_sql soup rates clock w).2 = Ok () ∧
  tables w' = db ∧
  stdout w' =
    stdout w ++ [inl "SELECT * FROM Largest_banks"%string; inr f1;
                 inl "SELECT AVG(TA_GBP_Billion) FROM Largest_banks"%string;
                 inr f2;
                 inl "SELECT Name from Largest_banks LIMIT 5"%string; inr f3] ∧
  files w' !! OUTPUT_CSV = Some (to_csv out) ∧
  files w' !! LOG_FILE =
    Some (default EmptyString (files w !! LOG_FILE) +:+
          log_lines clock 0 MILESTONES) ∧
  (∀ f, f ≠ LOG_FILE → f ≠ OUTPUT_CSV → files w' !! f = files w !! f).
Proof.
  intros He Ht db H1 H2 H3. rewrite (main_loaded _ _ _ _ _ _ He Ht).
  unfold prog_bind, run_query, prog_bind, print, on_files.
  cbn [files tables stdout]. fold db. rewrite H1.
  cbn [files tables stdout]. rewrite H2.
  cbn [files tables stdout]. rewrite H3.
  cbn [files tables stdout fst snd].
  split; [done|]. split; [done|]. split.
  { by rewrite <- !app_assoc. }
  split; [by rewrite !log_progress_other, files_loaded_csv by done|].
  split.
  - rewrite !log_progress_lookup, files_loaded_log. simpl default.
    cbn [take MILESTONES log_lines].
    by rewrite !append_assoc, !append_nil_r.
  - intros f Hf Hc. by rewrite !log_progress_other, files_loaded_other.
Qed.

(** X13: when a query raises after the load, the script stops with that
    exception, and what was written stays: the flat file, the table, the
    six log lines up to the one on the database load, and on the output the
    first query, printed before it was run. *)
Theorem X13_fault_in_a_query soup rates clock w df out :
  extract soup = Ok df →
  (transform rates df).2 = Ok out →
  let db := <[TABLE := {| Sql.columns := FINAL_ATTRIBUTES;
                          Sql.rows := List.map sql_row out |}]> (tables w) in
  Exists (λ q, is_ok (read_sql q db) = false) QUERIES →
  let w' := (main read_sql soup rates clock w).1 in
  is_ok (main read_sql soup rates clock w).2 = false ∧
  tables w' = db ∧
  (∃ more, stdout w' =
     stdout w ++ inl "SELECT * FROM Largest_banks"%string :: more) ∧
  files w' !! OUTPUT_CSV = Some (to_csv out) ∧
  files w' !! LOG_FILE =
    Some (default EmptyString (files w !! LOG_FILE) +:+
          log_lines clock 0 (take 6 MILESTONES)).
Proof.
  intros He Ht db Hq. rewrite (main_loaded _ _ _ _ _ _ He Ht).
  unfold prog_bind, run_query, prog_bind, print, on_files.
  cbn [files tables stdout]. fold db.
  unfold QUERIES in Hq. rewrite !Exists_cons, Exists_nil in Hq.
  destruct (read_sql "SELECT * FROM Largest_banks" db) as [f1|e1];
    cbn [files tables stdout fst snd is_ok] in *;
    [|rewrite files_loaded_csv, files_loaded_log;
     rewrite <- ?app_assoc; eauto 10].
  destruct (read_sql "SELECT AVG(TA_GBP_Billion) FROM Largest_banks" db)
    as [f2|e2]; cbn [files tables stdout fst snd is_ok] in *;
    [|rewrite files_loaded_csv, files_loaded_log;
     rewrite <- ?app_assoc; eauto 10].
  destruct (read_sql "SELECT Name from Largest_banks LIMIT 5" db)
    as [f3|e3]; cbn [files tables stdout fst snd is_ok] in *;
    [|rewrite files_loaded_csv, files_loaded_log;
     rewrite <- ?app_assoc; eauto 10].
  destruct Hq as [?|[?|[?|[]]]]; done.
Qed.

End WholeRun.

Lemma X11_fault_before_loading_witness :
  let w' := (main Run.row_count (Tag "[document]" []) Scenario.rates Run.noon
               Run.nothing).1 in
  (main Run.row_count (Tag "[document]" []) Scenario.rates Run.noon
     Run.nothing).2 = Raise IndexError ∧
  tables w' = ∅ ∧ files w' !! OUTPUT_CSV = None.
Proof.
  destruct (X11_fault_before_loading Run.row_count (Tag "[document]" [])
              Scenario.rates Run.noon Run.nothing IndexError eq_refl)
    as (H1 & H2 & _ & H4 & _).
  split; [exact H1|]. split; [exact H2|]. exact (H4 OUTPUT_CSV ltac:(done)).
Defined.

Lemma X12_complete_run_witness :
  let w' := (main Run.row_count Run.soup Scenario.rates Run.noon
               Run.nothing).1 in
  (main Run.row_count Run.soup Scenario.rates Run.noon Run.nothing).2
    = Ok () ∧
  files w' !! OUTPUT_CSV = Some (to_csv Scenario.expected) ∧
  stdout w' =
    [inl "SELECT * FROM Largest_banks"%string; inr 1%nat;
     inl "SELECT AVG(TA_GBP_Billion) FROM Largest_banks"%string; inr 1%nat;
     inl "SELECT Name from Largest_banks LIMIT 5"%string; inr 1%nat].
Proof.
  destruct (X12_complete_run Run.row_count Run.soup Scenario.rates Run.noon
              Run.nothing Scenario.input Scenario.expected 1%nat 1%nat 1%nat
              eq_refl eq_refl eq_refl eq_refl eq_refl)
    as (H1 & _ & H3 & H4 & _).
  split; [exact H1|]. split; [exact H4|]. exact H3.
Defined.

Lemma X13_fault_in_a_query_witness :
  let w' := (main Run.no_engine Run.soup Scenario.rates Run.noon
               Run.nothing).1 in
  is_ok (main Run.no_engine Run.soup Scenario.rates Run.noon Run.nothing).2
    = false ∧
  files w' !! OUTPUT_CSV = Some (to_csv Scenario.expected).
Proof.
  destruct (X13_fault_in_a_query Run.no_engine Run.soup Scenario.rates
              Run.noon Run.nothing Scenario.input Scenario.expected
              eq_refl eq_refl)
    as (H1 & _ & _ & H3 & _).
  - left. reflexivity.
  - split; [exact H1|exact H3].
Defined.

(** ** The flat file, the asset texts and the time stamps *)

Section Texts.

(** X14: two frames that give the same file have the same rows of
    printed fields, so as many records and the same bank names in the same
    order. *)
Theorem X14_to_csv_injective df1 df2 :
  to_csv df1 = to_csv df2 →
  List.map csv_fields df1 = List.map csv_fields df2 ∧
  length df1 = length df2 ∧
  List.map Final.Name df1 = List.map Final.Name df2.
Proof.
  intros H.
  assert (List.map csv_fields df1 = List.map csv_fields df2) as E.
  { pose proof (read_writerows (FINAL_ATTRIBUTES :: List.map csv_fields df1))
      as H1.
    pose proof (read_writerows (FINAL_ATTRIBUTES :: List.map csv_fields df2))
      as H2.
    unfold to_csv in H. rewrite H in H1. congruence. }
  split; [done|]. split.
  - by rewrite <- (length_map csv_fields df1), E, length_map.
  - clear H. revert df2 E. induction df1 as [|r1 df1 IH]; intros [|r2 df2];
      try done.
    cbn [List.map]. intros [= Hn _ _ _ _ E]. by rewrite Hn, (IH df2).
Qed.

Lemma X14_to_csv_injective_witness :
  List.map Final.Name Scenario.expected = ["Bank A"%string].
Proof.
  exact (proj2 (proj2 (X14_to_csv_injective Scenario.expected
    [{| Final.Name := "Bank A";
        Final.TA_USD_Billion := F64.of_decimal false 1000 0;
        Final.TA_GBP_Billion := F64.of_decimal false 800 0;
        Final.TA_EUR_Billion := F64.of_decimal false 930 0;
        Final.TA_INR_Billion := F64.of_decimal false 82100 0 |}] eq_refl))).
Defined.

Lemma rskip_blank w s :
  PyFloat.c_isspace w = true →
  PyFloat.rskip (s +:+ String w EmptyString) = PyFloat.rskip s.
Proof.
  intros Hw. induction s as [|c s IH].
  - rewrite append_nil_l. cbn [PyFloat.rskip]. by rewrite Hw.
  - rewrite append_cons. cbn [PyFloat.rskip]. by rewrite IH.
Qed.

Lemma rskip_lskip_blank w s :
  PyFloat.c_isspace w = true →
  PyFloat.rskip (PyFloat.lskip (s +:+ String w EmptyString)) =
  PyFloat.rskip (PyFloat.lskip s).
Proof.
  intros Hw. induction s as [|c s IH].
  - rewrite append_nil_l. cbn [PyFloat.lskip PyFloat.rskip]. by rewrite Hw.
  - rewrite append_cons. cbn [PyFloat.lskip].
    destruct (PyFloat.c_isspace c); [done|].
    by rewrite <- append_cons, rskip_blank.
Qed.

Lemma map_chars_app f s t :
  PyFloat.map_chars f (s +:+ t) =
  PyFloat.map_chars f s +:+ PyFloat.map_chars f t.
Proof.
  induction s as [|c s IH]; [done|].
  rewrite append_cons. cbn [PyFloat.map_chars]. by rewrite IH, append_cons.
Qed.

Lemma to_ascii_blank w :
  PyFloat.c_isspace w = true → PyFloat.to_ascii w = w.
Proof.
  unfold PyFloat.c_isspace, PyFloat.to_ascii. intros H.
  destruct (Nat.ltb_spec (PyFloat.code w) 127) as [|Hge]; [done|].
  apply orb_prop in H as [[_ H]%andb_prop|H].
  - apply Nat.leb_le in H. lia.
  - apply Nat.eqb_eq in H. lia.
Qed.

(** X15: white space of the C locale around an asset text (blank, tab,
    newline and the like) does not change what [float] makes of it, so
    [transform] computes the same value or raises the same way with it as
    without. *)
Theorem X15_float_ignores_blanks w1 w2 s :
  PyFloat.c_isspace w1 = true → PyFloat.c_isspace w2 = true →
  PyFloat.of_str (String w1 (s +:+ String w2 EmptyString)) = PyFloat.of_str s.
Proof.
  intros H1 H2. unfold PyFloat.of_str. cbn [PyFloat.map_chars].
  rewrite map_chars_app. cbn [PyFloat.map_chars].
  rewrite (to_ascii_blank w1), (to_ascii_blank w2) by done.
  cbn [PyFloat.lskip]. rewrite H1. by rewrite rskip_lskip_blank.
Qed.

Lemma X15_float_ignores_blanks_witness :
  PyFloat.of_str " 5000.1 " = Some (F64.of_decimal false 50001 (-1)).
Proof.
  exact (eq_trans
           (X15_float_ignores_blanks " " " " "5000.1" eq_refl eq_refl)
           eq_refl).
Defined.

Lemma length_append s t :
  String.length (s +:+ t) = (String.length s + String.length t)%nat.
Proof.
  induction s as [|c s IH]; [done|].
  rewrite append_cons. cbn [String.length]. by rewrite IH.
Qed.

Lemma substring_skip s k n t :
  String.substring (String.length s + k) n (s +:+ t) = String.substring k n t.
Proof.
  induction s as [|c s IH]; [done|]. rewrite append_cons. exact IH.
Qed.

Lemma substring_head s t :
  String.substring 0 (String.length s) (s +:+ t) = s.
Proof.
  induction s as [|c s IH]; [by destruct t|].
  rewrite append_cons. cbn [String.length String.substring]. by rewrite IH.
Qed.

Lemma year_digits y :
  1000 ≤ Z.of_nat y ≤ 9999 →
  String.length (Repr.digits_of (Z.of_nat y)) = 4%nat.
Proof.
  intros Hy.
  assert (forallb (λ k, String.length (Repr.digits_of (Z.of_nat k)) =? 4)%nat
            (seq (Z.to_nat 1000) (Z.to_nat 9000)) = true) as H by (vm_compute; reflexivity).
  rewrite forallb_forall in H. apply Nat.eqb_eq, H, in_seq. lia.
Qed.

Lemma padded_digits n :
  (n ≤ 99)%nat → String.length (Time.padded n) = 2%nat.
Proof.
  intros Hn.
  assert (forallb (λ k, String.length (Time.padded k) =? 2)%nat
            (seq 0 100) = true) as H by (vm_compute; reflexivity).
  rewrite forallb_forall in H. apply Nat.eqb_eq, H, in_seq. lia.
Qed.

Lemma month_letters m :
  (1 ≤ m ≤ 12)%nat → String.length (Time.month_abbr m) = 3%nat.
Proof.
  intros Hm. do 13 (destruct m as [|m]; [done || lia|]). lia.
Qed.

Lemma timestamp_length t :
  valid_datetime t = true →
  String.length (Time.strftime "%Y-%h-%d-%H:%M:%S" t) = 20%nat.
Proof.
  unfold valid_datetime. intros H.
  repeat match goal with
         | H : _ && _ = true |- _ => apply andb_prop in H as [? ?]
         end.
  repeat match goal with
         | H : (_ <=? _)%nat = true |- _ => apply Nat.leb_le in H
         | H : (_ <=? _) = true |- _ => apply Z.leb_le in H
         end.
  cbn [Time.strftime Time.directive].
  repeat (rewrite length_append || cbn [String.length]).
  rewrite year_digits, month_letters, !padded_digits by lia. done.
Qed.

(** X16: at a time with a four-digit year the time stamp of a log line is
    20 characters long, in the shape [YYYY-Mon-DD-HH:MM:SS], so the message
    stands in the line from the 24th character on and can be read off it
    unchanged. *)
Theorem X16_log_line_layout now message :
  valid_datetime now = true →
  String.length (Time.strftime "%Y-%h-%d-%H:%M:%S" now) = 20%nat ∧
  String.length (log_line now message) = (24 + String.length message)%nat ∧
  String.substring 23 (String.length message) (log_line now message) = message.
Proof.
  intros H. pose proof (timestamp_length now H) as Hts.
  split; [done|]. unfold log_line. split.
  - rewrite !length_append, Hts. cbn [String.length]. lia.
  - change 23%nat with (20 + 3)%nat. rewrite <- Hts, substring_skip.
    change (" : " +:+ message +:+ String Str.LF EmptyString)
      with (String " " (String ":" (String " "
              (message +:+ String Str.LF EmptyString)))).
    cbn [String.substring]. apply substring_head.
Qed.

Lemma X16_log_line_layout_witness :
  String.substring 23 16 (log_line (Run.noon 0%nat) "Process complete")
    = "Process complete"%string.
Proof.
  exact (proj2 (proj2 (X16_log_line_layout (Run.noon 0%nat) "Process complete"
                         eq_refl))).
Defined.

End Texts.

(** ** Why the commas have to go *)

Section Commas.
Import PyFloat.

Ltac all_chars c :=
  destruct c as [[] [] [] [] [] [] [] []]; intros;
  first [reflexivity | discriminate | done | idtac].

Lemma comma_to_ascii c : Ascii.eqb (to_ascii c) "," = Ascii.eqb c ",".
Proof. all_chars c. Qed.

Lemma comma_lower c : Ascii.eqb (lower c) "," = Ascii.eqb c ",".
Proof. all_chars c. Qed.

Lemma comma_not_space c : c_isspace c = true → Ascii.eqb c "," = false.
Proof. all_chars c. Qed.

Lemma comma_not_digit c d : digit c = Some d → Ascii.eqb c "," = false.
Proof. all_chars c. Qed.

Lemma comma_not_underscore c :
  Ascii.eqb c "_" = true → Ascii.eqb c "," = false.
Proof. all_chars c. Qed.

Lemma contains_map_chars f s :
  (∀ c, Ascii.eqb (f c) "," = Ascii.eqb c ",") →
  Str.contains "," (map_chars f s) = Str.contains "," s.
Proof.
  intros Hf. induction s as [|c s IH]; [done|].
  cbn [map_chars Str.contains]. by rewrite Hf, IH.
Qed.

Lemma contains_lskip s : Str.contains "," (lskip s) = Str.contains "," s.
Proof.
  induction s as [|c s IH]; [done|]. cbn [lskip].
  destruct (c_isspace c) eqn:E; [|done].
  cbn [Str.contains]. by rewrite IH, (comma_not_space c E).
Qed.

Lemma contains_rskip s : Str.contains "," (rskip s) = Str.contains "," s.
Proof.
  induction s as [|c s IH]; [done|]. cbn [rskip Str.contains].
  rewrite <- IH. destruct (rskip s) as [|d r]; [|done].
  destruct (c_isspace c) eqn:E; [|done].
  cbn [Str.contains]. by rewrite (comma_not_space c E).
Qed.

Lemma contains_drop_underscores prev s s' :
  drop_underscores prev s = Some s' →
  Str.contains "," s' = Str.contains "," s.
Proof.
  revert prev s'. induction s as [|c s IH]; intros prev s'; cbn [drop_underscores].
  - destruct (Ascii.eqb prev "_"); [done|]. by intros [= <-].
  - destruct (Ascii.eqb c "_") eqn:E.
    + destruct (is_digit prev); [|done]. intros H%IH.
      cbn [Str.contains]. by rewrite (comma_not_underscore c E).
    + destruct (Ascii.eqb prev "_" && negb (is_digit c)); [done|].
      destruct (drop_underscores c s) as [t|] eqn:D; [|done].
      intros [= <-]. cbn [Str.contains]. by rewrite (IH _ _ D).
Qed.

Lemma contains_sign s :
  Str.contains "," (sign s).2 = Str.contains "," s.
Proof.
  destruct s as [|c s]; [done|]. unfold sign.
  all_chars c.
Qed.

Lemma contains_digits acc n s :
  Str.contains "," (digits acc n s).2 = Str.contains "," s.
Proof.
  revert acc n. induction s as [|c s IH]; intros acc n; [done|].
  cbn [digits]. destruct (digit c) as [d|] eqn:E; [|done].
  rewrite IH. cbn [Str.contains]. by rewrite (comma_not_digit c d E).
Qed.

Lemma decimal_no_comma s x :
  decimal s = Some x → Str.contains "," s = false.
Proof.
  unfold decimal. rewrite <- (contains_sign s).
  destruct (sign s) as [neg s1]. cbn [snd].
  rewrite <- (contains_digits 0 0 s1).
  destruct (digits 0 0 s1) as [[i ni] s2]. cbn [snd].
  assert (∀ m nf s3,
    (let '(m, nf, s3) := (m, nf, s3) in
     if (ni + nf =? 0)%nat then None
     else match s3 with
          | EmptyString => Some (F64.of_decimal neg m (- Z.of_nat nf))
          | String c t =>
              if Ascii.eqb (lower c) "e" then
                let '(eneg, t1) := sign t in
                let '(x, nx, t2) := digits 0 0 t1 in
                match nx, t2 with
                | S _, EmptyString =>
                    Some (F64.of_decimal neg m
                            (cond_Zopp eneg (Z.of_N x) - Z.of_nat nf))
                | _, _ => None
                end
              else None
          end) = Some x → Str.contains "," s3 = false) as Htail.
  { intros m nf s3. cbn zeta beta iota.
    destruct (ni + nf =? 0)%nat; [done|].
    destruct s3 as [|c t]; [done|].
    destruct (Ascii.eqb (lower c) "e") eqn:E; [|done].
    assert (Ascii.eqb c "," = false) as Hc by (revert E; all_chars c).
    cbn [Str.contains]. rewrite Hc, orb_false_l.
    rewrite <- (contains_sign t). destruct (sign t) as [eneg t1]. cbn [snd].
    rewrite <- (contains_digits 0 0 t1).
    destruct (digits 0 0 t1) as [[x' nx] t2]. cbn [snd].
    destruct nx; [done|]. by destruct t2. }
  destruct s2 as [|c t].
  - apply (Htail i 0%nat EmptyString).
  - destruct (Ascii.eqb_spec c ".") as [->|Hc].
    + pose proof (contains_digits i 0 t) as Hd.
      destruct (digits i 0 t) as [[m nf] s3]. cbn [snd] in Hd.
      intros H%(Htail m nf s3). cbn [Str.contains]. by rewrite <- Hd, H.
    + intros H. apply (Htail i 0%nat (String c t)).
      revert H. clear -Hc. all_chars c.
Qed.

Lemma inf_or_nan_no_comma s x :
  inf_or_nan s = Some x → Str.contains "," s = false.
Proof.
  unfold inf_or_nan. rewrite <- (contains_sign s).
  destruct (sign s) as [neg s1]. cbn [snd].
  rewrite <- (contains_map_chars lower s1 comma_lower).
  destruct (String.eqb_spec (map_chars lower s1) "inf") as [->|_]; [done|].
  destruct (String.eqb_spec (map_chars lower s1) "infinity") as [->|_]; [done|].
  destruct (String.eqb_spec (map_chars lower s1) "nan") as [->|_]; done.
Qed.

(** X17: [float] rejects every text that holds a comma, so without the
    removal of the commas on line 77 an asset text with a thousands
    separator would make [astype] raise. *)
Theorem X17_float_rejects_commas s :
  Str.contains "," s = true → of_str s = None.
Proof.
  intros Hs. unfold of_str.
  set (s1 := rskip (lskip (map_chars to_ascii s))).
  assert (Str.contains "," s1 = true) as H1.
  { subst s1. by rewrite contains_rskip, contains_lskip,
      (contains_map_chars to_ascii s comma_to_ascii). }
  assert (∀ s2, Str.contains "," s2 = true →
            match decimal s2 with
            | Some x => Some x
            | None => inf_or_nan s2
            end = None) as Hbody.
  { intros s2 H2. destruct (decimal s2) as [x|] eqn:D.
    - apply decimal_no_comma in D. congruence.
    - destruct (inf_or_nan s2) as [x|] eqn:I; [|done].
      apply inf_or_nan_no_comma in I. congruence. }
  destruct (String.index 0 "_" s1).
  - destruct (drop_underscores "000" s1) as [s2|] eqn:D; [|done].
    cbn [mbind option_bind]. apply Hbody.
    by rewrite (contains_drop_underscores _ _ _ D).
  - cbn [mbind option_bind]. by apply Hbody.
Qed.

Lemma X17_float_rejects_commas_witness : of_str "1,000.00" = None.
Proof. exact (X17_float_rejects_commas "1,000.00" eq_refl). Defined.

End Commas.

(** ** Where a negative value can come from *)

Section Signs.
Import PyFloat.

Ltac all_chars c :=
  destruct c as [[] [] [] [] [] [] [] []]; intros;
  first [reflexivity | discriminate | done | idtac].

Lemma minus_to_ascii c : Ascii.eqb (to_ascii c) "-" = Ascii.eqb c "-".
Proof. all_chars c. Qed.

Lemma minus_not_space c : c_isspace c = true → Ascii.eqb c "-" = false.
Proof. all_chars c. Qed.

Lemma minus_map_to_ascii s :
  Str.contains "-" (map_chars to_ascii s) = Str.contains "-" s.
Proof.
  induction s as [|c s IH]; [done|].
  cbn [map_chars Str.contains]. by rewrite minus_to_ascii, IH.
Qed.

Lemma minus_lskip s : Str.contains "-" (lskip s) = Str.contains "-" s.
Proof.
  induction s as [|c s IH]; [done|]. cbn [lskip].
  destruct (c_isspace c) eqn:E; [|done].
  cbn [Str.contains]. by rewrite IH, (minus_not_space c E).
Qed.

Lemma minus_rskip s : Str.contains "-" (rskip s) = Str.contains "-" s.
Proof.
  induction s as [|c s IH]; [done|]. cbn [rskip Str.contains].
  rewrite <- IH. destruct (rskip s) as [|d r]; [|done].
  destruct (c_isspace c) eqn:E; [|done].
  cbn [Str.contains]. by rewrite (minus_not_space c E).
Qed.

Lemma minus_drop_underscores prev s s' :
  drop_underscores prev s = Some s' →
  Str.contains "-" s' = Str.contains "-" s.
Proof.
  revert prev s'. induction s as [|c s IH]; intros prev s'; cbn [drop_underscores].
  - destruct (Ascii.eqb prev "_"); [done|]. by intros [= <-].
  - destruct (Ascii.eqb c "_") eqn:E.
    + destruct (is_digit prev); [|done]. intros H%IH.
      cbn [Str.contains]. rewrite H. revert E. by all_chars c.
    + destruct (Ascii.eqb prev "_" && negb (is_digit c)); [done|].
      destruct (drop_underscores c s) as [t|] eqn:D; [|done].
      intros [= <-]. cbn [Str.contains]. by rewrite (IH _ _ D).
Qed.

Lemma sign_without_minus s : Str.contains "-" s = false → (sign s).1 = false.
Proof. destruct s as [|c s]; [done|]. revert s. all_chars c. Qed.

Lemma of_decimal_nonneg m e : F64.nonneg (F64.of_decimal false m e) = true.
Proof.
  unfold F64.of_decimal, F64.of_ratio. destruct m as [|p]; [done|].
  destruct (0 <=? e); by apply (div_nonneg_pos (S754_finite false _ 0)).
Qed.

Lemma decimal_nonneg s x :
  Str.contains "-" s = false → decimal s = Some x → F64.nonneg x = true.
Proof.
  intros Hs%sign_without_minus. unfold decimal.
  destruct (sign s) as [neg s1]. cbn [fst] in Hs. subst neg.
  destruct (digits 0 0 s1) as [[i ni] s2].
  destruct (match s2 with
            | String "." t => digits i 0 t
            | _ => (i, 0%nat, s2)
            end) as [[m nf] s3].
  destruct (ni + nf =? 0)%nat; [done|].
  destruct s3 as [|c t]; [intros [= <-]; apply of_decimal_nonneg|].
  destruct (Ascii.eqb (lower c) "e"); [|done].
  destruct (sign t) as [eneg t1]. destruct (digits 0 0 t1) as [[x' nx] t2].
  destruct nx; [done|]. destruct t2; [|done].
  intros [= <-]. apply of_decimal_nonneg.
Qed.

Lemma inf_or_nan_nonneg s x :
  Str.contains "-" s = false → inf_or_nan s = Some x →
  x = S754_nan ∨ F64.nonneg x = true.
Proof.
  intros Hs%sign_without_minus. unfold inf_or_nan.
  destruct (sign s) as [neg s1]. cbn [fst] in Hs. subst neg.
  destruct (_ || _); [intros [= <-]; by right|].
  destruct (String.eqb _ _); [intros [= <-]; by left|done].
Qed.

(** X18: a negative number can only come from a minus sign in the text:
    what [float] makes of a text without one is NaN or not negative. *)
Theorem X18_float_sign s x :
  Str.contains "-" s = false → of_str s = Some x →
  x = S754_nan ∨ F64.nonneg x = true.
Proof.
  intros Hs. unfold of_str.
  set (s1 := rskip (lskip (map_chars to_ascii s))).
  assert (Str.contains "-" s1 = false) as H1.
  { subst s1. by rewrite minus_rskip, minus_lskip, minus_map_to_ascii. }
  assert (∀ s2, Str.contains "-" s2 = false →
            match decimal s2 with
            | Some x => Some x
            | None => inf_or_nan s2
            end = Some x → x = S754_nan ∨ F64.nonneg x = true) as Hbody.
  { intros s2 H2. destruct (decimal s2) as [y|] eqn:D.
    - intros [= <-]. right. by apply (decimal_nonneg s2).
    - by apply inf_or_nan_nonneg. }
  destruct (String.index 0 "_" s1).
  - destruct (drop_underscores "000" s1) as [s2|] eqn:D; [|done].
    cbn [mbind option_bind]. apply Hbody.
    by rewrite (minus_drop_underscores _ _ _ D).
  - cbn [mbind option_bind]. by apply Hbody.
Qed.

Lemma X18_float_sign_witness :
  F64.of_Z 1000 = S754_nan ∨ F64.nonneg (F64.of_Z 1000) = true.
Proof. exact (X18_float_sign "1000.00" (F64.of_Z 1000) eq_refl eq_refl). Defined.

End Signs.

(** ** The lines of the flat file *)

Section PlainLines.
Import Csv.

Lemma any_app p s t : any p (s +:+ t) = any p s || any p t.
Proof.
  induction s as [|c s IH]; [done|].
  rewrite append_cons. cbn [any]. by rewrite IH, orb_assoc.
Qed.

Lemma any_substring p n m s :
  any p s = false → any p (String.substring n m s) = false.
Proof.
  revert n m. induction s as [|c s IH]; intros n m; cbn [any].
  - by destruct n, m.
  - intros [Hc Hs]%orb_false_elim. destruct n as [|n]; cbn [String.substring].
    + destruct m as [|m]; [done|]. cbn [any]. by rewrite Hc, IH.
    + by apply IH.
Qed.

Lemma any_strip_zeros p s :
  any p s = false → any p (Repr.strip_zeros s) = false.
Proof.
  induction s as [|c s IH]; [done|]. cbn [any Repr.strip_zeros].
  intros [Hc Hs]%orb_false_elim. specialize (IH Hs).
  destruct (Repr.strip_zeros s) as [|d r].
  - destruct (Ascii.eqb c "0"); [done|]. cbn [any]. by rewrite Hc.
  - cbn [any] in *. by rewrite Hc, IH.
Qed.

Lemma any_uint d : any special (NilEmpty.string_of_uint d) = false.
Proof.
  induction d as [|d IH|d IH|d IH|d IH|d IH|d IH|d IH|d IH|d IH|d IH];
    cbn [NilEmpty.string_of_uint any]; [done|..]; by rewrite IH.
Qed.

Lemma any_digits_of n : any special (Repr.digits_of n) = false.
Proof.
  unfold Repr.digits_of.
  destruct (N.to_uint (Z.to_N n)) as [|d|d|d|d|d|d|d|d|d|d];
    try exact (any_uint _).
  done.
Qed.

Lemma any_zeros n : any special (Repr.zeros n) = false.
Proof. induction n as [|n IH]; [done|]. cbn [Repr.zeros any]. by rewrite IH. Qed.

Lemma any_exponent x : any special (Repr.exponent x) = false.
Proof.
  unfold Repr.exponent. rewrite !any_app, any_digits_of.
  by destruct (x <? 0), (Z.abs x <? 10).
Qed.

Lemma any_shortest m e : any special (Repr.shortest m e).1 = false.
Proof.
  unfold Repr.shortest.
  destruct (if 0 <=? e then _ else _) as [num den].
  destruct (Repr.shortest_from _ _ _ _ _ _) as [c p]. cbn [fst].
  apply any_strip_zeros, any_digits_of.
Qed.

(** A number is printed without comma, quote or newline. *)
Lemma any_repr x : any special (Repr.repr x) = false.
Proof.
  destruct x as [[]|[]| |s m e]; try done. unfold Repr.repr.
  pose proof (any_shortest m e) as H.
  destruct (Repr.shortest m e) as [ds decpt]. cbn [fst] in H.
  rewrite any_app.
  replace (any special (if s then "-" else "")) with false by by destruct s.
  cbn [orb].
  destruct (_ || _).
  - rewrite !any_app, any_substring, any_exponent by done.
    destruct (1 <? _); [|done].
    by rewrite any_app, any_substring.
  - destruct (decpt <=? 0); [by rewrite !any_app, any_zeros, H|].
    destruct (_ <=? decpt); [by rewrite !any_app, any_zeros, H|].
    by rewrite !any_app, !any_substring.
Qed.

Lemma any_csv_cell x : any special (csv_cell x) = false.
Proof. destruct x; try done; apply any_repr. Qed.

Lemma field_plain s : any special s = false → field s = s.
Proof. unfold field. by intros ->. Qed.

Lemma count_plain c s :
  special c = true → any special s = false → StrCount.count c s = 0%nat.
Proof.
  intros Hc. induction s as [|d s IH]; [done|]. cbn [any StrCount.count].
  intros [Hd Hs]%orb_false_elim. rewrite (IH Hs).
  destruct (Ascii.eqb_spec d c) as [->|]; [congruence|done].
Qed.

(** X19: a record whose bank name holds no comma, quote or newline is
    written as one plain line: the name, the four numbers as printed,
    commas between them and a line feed at the end, without any quoting, so
    the line has exactly four commas and splits at them. *)
Theorem X19_plain_line r :
  any special (Final.Name r) = false →
  writerow (csv_fields r) =
    Final.Name r +:+ "," +:+ csv_cell (Final.TA_USD_Billion r) +:+ "," +:+
    csv_cell (Final.TA_GBP_Billion r) +:+ "," +:+
    csv_cell (Final.TA_EUR_Billion r) +:+ "," +:+
    csv_cell (Final.TA_INR_Billion r) +:+ String Str.LF EmptyString ∧
  StrCount.count "," (writerow (csv_fields r)) = 4%nat ∧
  StrCount.count QUOTE (writerow (csv_fields r)) = 0%nat ∧
  StrCount.count Str.LF (writerow (csv_fields r)) = 1%nat.
Proof.
  intros Hn.
  assert (writerow (csv_fields r) =
    Final.Name r +:+ "," +:+ csv_cell (Final.TA_USD_Billion r) +:+ "," +:+
    csv_cell (Final.TA_GBP_Billion r) +:+ "," +:+
    csv_cell (Final.TA_EUR_Billion r) +:+ "," +:+
    csv_cell (Final.TA_INR_Billion r) +:+ String Str.LF EmptyString) as E.
  { unfold writerow, csv_fields. cbn [join].
    rewrite !field_plain by (done || apply any_csv_cell).
    destruct (Final.Name r);
      repeat (rewrite append_assoc || rewrite append_cons ||
              rewrite append_nil_l); reflexivity. }
  split; [done|]. rewrite E. clear E.
  repeat split; rewrite !count_app,
    !(count_plain _ (csv_cell _)), (count_plain _ (Final.Name r))
    by (done || apply any_csv_cell); done.
Qed.

Lemma X19_plain_line_witness :
  writerow (csv_fields
    {| Final.Name := "Bank A";
       Final.TA_USD_Billion := F64.of_Z 1000;
       Final.TA_GBP_Billion := F64.of_Z 800;
       Final.TA_EUR_Billion := F64.of_Z 930;
       Final.TA_INR_Billion := F64.of_Z 82100 |}) =
  ("Bank A,1000.0,800.0,930.0,82100.0" +:+ String Str.LF EmptyString).
Proof.
  exact (eq_trans (proj1 (X19_plain_line
    {| Final.Name := "Bank A";
       Final.TA_USD_Billion := F64.of_Z 1000;
       Final.TA_GBP_Billion := F64.of_Z 800;
       Final.TA_EUR_Billion := F64.of_Z 930;
       Final.TA_INR_Billion := F64.of_Z 82100 |} eq_refl)) eq_refl).
Defined.

End PlainLines.
